(** * graphiti_agent: the retrieval tool and the interactive session

    A shallow embedding of [src/graphiti_agent/agent.py] (the tool
    [search_graphiti], the session [main] and [get_model]) and of
    [src/graphiti_agent/llm_config.py] (the configuration,
    [create_graphiti_client] and [initialize_graphiti_with_clean_state]).

    Python features and how they are written here:
    - a call either returns or raises: [outcome];
    - [Exception] and the signals outside it ([KeyboardInterrupt],
      [asyncio.CancelledError], [SystemExit]) are kept apart, because
      [except Exception] catches only the former: [exn];
    - the list object [messages] of [main] is mutated in place: it is the
      store of the monad [M];
    - everything the program does to the outside (collaborator calls,
      console, logging) is recorded, in order, in a trace of [event]s;
    - the fact store, [clear_data] and the pydantic-ai agent are
      collaborators outside the repository: their replies are parameters;
    - so is what the libraries say and refuse: the wording of the
      exceptions that Python and pydantic raise ([Texts]), what rich makes
      of a text with markup ([Console]) and whether the constructors of
      the clients return ([Constructors]). *)

From Stdlib Require Import Ascii.
From stdpp Require Import gmap strings list pretty.

Open Scope string_scope.
Open Scope list_scope.

(** ** Exceptions and outcomes *)

Inductive exn : Type :=
| Exception (cls msg : string)      (* an instance of Exception *)
| BaseException (cls msg : string). (* raised, but not an Exception *)

Definition KeyboardInterrupt : exn := BaseException "KeyboardInterrupt" "".
Definition EOFError : exn := Exception "EOFError" "EOF when reading a line".

(** [type(e).__name__] and [str(e)] *)
Definition type_name (e : exn) : string :=
  match e with Exception c _ | BaseException c _ => c end.
Definition exn_str (e : exn) : string :=
  match e with Exception _ m | BaseException _ m => m end.

Inductive outcome (A : Type) : Type :=
| Return (a : A)
| Raise (e : exn).
Arguments Return {A} a.
Arguments Raise {A} e.

#[global] Instance outcome_ret : MRet outcome := fun A a => Return a.
#[global] Instance outcome_bind : MBind outcome := fun A B f m =>
  match m with
  | Return a => f a
  | Raise e => Raise e
  end.

(** ** Values delivered by the fact store

    [graphiti.search] is typed to return a list of edges, but the tool
    reads the reply by duck typing, so the reply is modelled untyped: the
    attribute values an edge can hold, a list element, and the whole
    reply. *)

Inductive pyval : Type :=
| PNone
| PStr (s : string)
| PInt (z : Z)
| PDatetime (rendering : string).  (* rendering is what str() gives *)

Inductive raw_result : Type :=
| Edge (attrs : gmap string pyval)  (* an object and its attributes *)
| Plain (v : pyval).                (* an element that is no object *)

Inductive response : Type :=
| Results (l : list raw_result)
| Other (v : pyval).

(** [bool(v)] *)
Definition truthy (v : pyval) : bool :=
  match v with
  | PNone => false
  | PStr s => negb (String.eqb s "")
  | PInt z => negb (Z.eqb z 0)
  | PDatetime _ => true
  end.

(** [str(v)] *)
Definition py_str (v : pyval) : string :=
  match v with
  | PNone => "None"
  | PStr s => s
  | PInt z => pretty z
  | PDatetime r => r
  end.

(** None of [None], [str], [int] and [datetime] has one of the five
    attributes the tool reads, so only an [Edge] can have them. *)
Definition hasattr (r : raw_result) (name : string) : bool :=
  match r with
  | Edge attrs =>
      match attrs !! name with
      | Some _ => true
      | None => false
      end
  | Plain _ => false
  end.

(** What can go wrong inside the tool. The exception classes are fixed by
    Python and pydantic; the message of each exception is theirs as well
    and is taken from [texts], whatever it is. *)
Inductive failure : Type :=
| NoAttribute (r : raw_result) (name : string)  (* r.name *)
| NoLen (v : pyval)                             (* len(v) *)
| NotIterable (v : pyval)                       (* for _ in v *)
| Invalid (u f src : pyval).                    (* GraphitiSearchResult(..) *)

Definition Texts : Type := failure → string.

Definition AttributeError (texts : Texts) (r : raw_result) (name : string) : exn :=
  Exception "AttributeError" (texts (NoAttribute r name)).

Definition getattr (texts : Texts) (r : raw_result) (name : string)
  : outcome pyval :=
  match r with
  | Edge attrs =>
      match attrs !! name with
      | Some v => Return v
      | None => Raise (AttributeError texts r name)
      end
  | Plain _ => Raise (AttributeError texts r name)
  end.

Definition TypeError (msg : string) : exn := Exception "TypeError" msg.

(** [len(results)]: lists and strings have a length. *)
Definition py_len (texts : Texts) (r : response) : outcome nat :=
  match r with
  | Results l => Return (length l)
  | Other (PStr s) => Return (String.length s)
  | Other v => Raise (TypeError (texts (NoLen v)))
  end.

Fixpoint chars (s : string) : list raw_result :=
  match s with
  | EmptyString => []
  | String c s' => Plain (PStr (String c EmptyString)) :: chars s'
  end.

(** [for result in results]: a list yields its elements, a string its
    characters. *)
Definition py_iter (texts : Texts) (r : response)
  : outcome (list raw_result) :=
  match r with
  | Results l => Return l
  | Other (PStr s) => Return (chars s)
  | Other v => Raise (TypeError (texts (NotIterable v)))
  end.

(** ** The result model [GraphitiSearchResult] *)

Record GraphitiSearchResult : Type := {
  uuid : string;
  fact : string;
  valid_at : option string;
  invalid_at : option string;
  source_node_uuid : option string
}.

Definition set_valid_at (s : string) (r : GraphitiSearchResult) :=
  {| uuid := uuid r; fact := fact r; valid_at := Some s;
     invalid_at := invalid_at r; source_node_uuid := source_node_uuid r |}.
Definition set_invalid_at (s : string) (r : GraphitiSearchResult) :=
  {| uuid := uuid r; fact := fact r; valid_at := valid_at r;
     invalid_at := Some s; source_node_uuid := source_node_uuid r |}.

(** pydantic's validation of a [str] field and of an [Optional[str]]
    field (no coercion from numbers or other objects). *)
Definition validate_str (v : pyval) : option string :=
  match v with PStr s => Some s | _ => None end.
Definition validate_optional_str (v : pyval) : option (option string) :=
  match v with
  | PNone => Some None
  | PStr s => Some (Some s)
  | _ => None
  end.

Definition ValidationError (texts : Texts) (u f src : pyval) : exn :=
  Exception "ValidationError" (texts (Invalid u f src)).

(** [GraphitiSearchResult(uuid=.., fact=.., source_node_uuid=..)]; the
    two timestamps take their default [None]. *)
Definition new_GraphitiSearchResult (texts : Texts) (u f src : pyval)
  : outcome GraphitiSearchResult :=
  match validate_str u, validate_str f, validate_optional_str src with
  | Some u', Some f', Some src' =>
      Return {| uuid := u'; fact := f'; valid_at := None;
                invalid_at := None; source_node_uuid := src' |}
  | _, _, _ => Raise (ValidationError texts u f src)
  end.

(** The body of the loop of [search_graphiti], lines 102-112: the
    formatted result of one raw result. *)
Definition format_result (texts : Texts) (result : raw_result)
  : outcome GraphitiSearchResult :=
  u ← getattr texts result "uuid";
  f ← getattr texts result "fact";
  src ← (if hasattr result "source_node_uuid"
         then getattr texts result "source_node_uuid" else Return PNone);
  formatted_result ← new_GraphitiSearchResult texts u f src;
  formatted_result ←
    (if hasattr result "valid_at" then
       v ← getattr texts result "valid_at";
       Return (if truthy v then set_valid_at (py_str v) formatted_result
               else formatted_result)
     else Return formatted_result);
  (if hasattr result "invalid_at" then
     v ← getattr texts result "invalid_at";
     Return (if truthy v then set_invalid_at (py_str v) formatted_result
             else formatted_result)
   else Return formatted_result).

(** Lines 100-114: the loop, appending to [formatted_results]. *)
Fixpoint format_results (texts : Texts) (results : list raw_result)
    (formatted_results : list GraphitiSearchResult)
  : outcome (list GraphitiSearchResult) :=
  match results with
  | [] => Return formatted_results
  | result :: rest =>
      formatted_result ← format_result texts result;
      format_results texts rest (formatted_results ++ [formatted_result])
  end.

(** ** Messages, events and the monad of the program *)

(** The entries of pydantic-ai's message history, by what they carry. *)
Inductive message : Type :=
| UserPrompt (text : string)
| ToolCall (query : string)
| ToolReturn (facts : list GraphitiSearchResult)
| AssistantText (text : string).

(** What [console.print] shows (rich markup left out). *)
Inductive rendered : Type :=
| IndicesBuilt                      (* line 162 *)
| UsingExistingIndices (msg : string) (* line 171 *)
| Prompt                            (* line 178 *)
| Goodbye                           (* line 183 *)
| Robot                             (* line 188 *)
| ErrorMessage (msg : string)       (* line 206 *)
| Troubleshooting                   (* line 219 *)
| ConnectionClosed.                 (* line 223 *)

Inductive event : Type :=
| LogInfo (s : string)
| LogError (s : string)
| Search (query : string)
| BuildIndices
| ClearData
| Close
| RunStream (user_prompt : string) (message_history : list message)
| Input (line : string)
| ConsolePrint (r : rendered)
| StdoutPrint (s : string)
| LiveUpdate (markdown : string).

#[global] Instance event_eq_dec : EqDecision event.
Proof. unfold EqDecision, Decision. repeat decide equality. Defined.

(** A computation reads and updates the list object [messages], emits
    events and returns or raises. *)
Definition M (A : Type) : Type :=
  list message → list event * list message * outcome A.

Definition trace {A} (r : list event * list message * outcome A) := r.1.1.
Definition history {A} (r : list event * list message * outcome A) := r.1.2.
Definition result {A} (r : list event * list message * outcome A) := r.2.

#[global] Instance M_ret : MRet M := fun A a messages => ([], messages, Return a).
#[global] Instance M_bind : MBind M := fun A B f m messages =>
  match m messages with
  | (t, messages', Return a) =>
      match f a messages' with
      | (t', messages'', o) => (t ++ t', messages'', o)
      end
  | (t, messages', Raise e) => (t, messages', Raise e)
  end.

Definition emit (e : event) : M unit := fun messages => ([e], messages, Return ()).
Definition raise {A} (e : exn) : M A := fun messages => ([], messages, Raise e).
Definition lift {A} (o : outcome A) : M A := fun messages => ([], messages, o).
Definition get_messages : M (list message) :=
  fun messages => ([], messages, Return messages).
(** [messages.extend(l)] *)
Definition extend (l : list message) : M unit :=
  fun messages => ([], messages ++ l, Return ()).

(** A call to a collaborator: the call is recorded, then it replies. *)
Definition call {A} (e : event) (reply : outcome A) : M A := emit e;; lift reply.

(** [try: body / except Exception as e: handler e] *)
Definition try_except {A} (body : M A) (handler : exn → M A) : M A :=
  fun messages =>
    match body messages with
    | (t, messages', Raise (Exception c m)) =>
        match handler (Exception c m) messages' with
        | (t', messages'', o) => (t ++ t', messages'', o)
        end
    | r => r
    end.

(** [try: body / finally: final]: [final] runs whatever [body] did; what
    [body] raised is raised again unless [final] raises itself. *)
Definition try_finally {A} (body : M A) (final : M unit) : M A :=
  fun messages =>
    match body messages with
    | (t, messages', o) =>
        match final messages' with
        | (t', messages'', Return _) => (t ++ t', messages'', o)
        | (t', messages'', Raise e) => (t ++ t', messages'', Raise e)
        end
    end.

(** ** The collaborators *)

(** The fact-store client. [build_indices_and_constraints n] is the reply
    to the call made after [n] earlier calls. *)
Record Graphiti : Type := {
  search : string → outcome response;
  build_indices_and_constraints : nat → outcome unit;
  close : outcome unit
}.

(** What [run_stream(..)] followed by [stream_text(delta=True)] does: it
    yields text fragments and then either ends, after which
    [all_messages()] is available, or raises. A stream that raises before
    its first fragment is a backend that could not be reached. *)
Inductive stream : Type :=
| Fragment (delta : string) (rest : stream)
| Complete (all_messages : list message)
| Abort (e : exn).

Record Agent : Type := {
  run_stream : string → list message → stream
}.

(** ** The retrieval tool, [search_graphiti] (agent.py, lines 80-121) *)

Definition search_graphiti (texts : Texts) (graphiti : Graphiti)
    (query : string) : M (list GraphitiSearchResult) :=
  try_except
    (emit (LogInfo ("Searching Graphiti with query: " +:+ query));;
     results ← call (Search query) (search graphiti query);
     n ← lift (py_len texts results);
     emit (LogInfo ("Found " +:+ pretty n +:+ " results"));;
     items ← lift (py_iter texts results);
     lift (format_results texts items []))
    (fun e =>
       emit (LogError ("Error searching Graphiti: " +:+ type_name e
                       +:+ ": " +:+ exn_str e));;
       mret []).

(** ** Strings

    Strings are sequences of bytes. [lower] is [str.lower] on the letters
    A-Z and leaves every other byte as it is; [contains sub s] is
    [sub in s]. The words looked for below are plain lowercase ASCII, and
    no character outside ASCII lowercases to a run of letters that
    completes one of them, so the tests decide as Python's do. *)

Definition lower_ascii (c : ascii) : ascii :=
  let n := N_of_ascii c in
  if (65 <=? n)%N && (n <=? 90)%N then ascii_of_N (n + 32) else c.

Fixpoint lower (s : string) : string :=
  match s with
  | EmptyString => EmptyString
  | String c s' => String (lower_ascii c) (lower s')
  end.

Fixpoint contains (sub s : string) : bool :=
  String.prefix sub s ||
  match s with
  | EmptyString => false
  | String _ s' => contains sub s'
  end.

(** ** The session, [main] (agent.py, lines 159-223) *)

(** What [input()] gives, call after call: a line, or an exception (a
    [KeyboardInterrupt] at the prompt). When nothing is left to read,
    [input()] raises [EOFError]. *)
Inductive stdin_event : Type :=
| Line (s : string)
| InputRaises (e : exn).

Definition exit_words : list string := ["exit"; "quit"; "bye"; "goodbye"].

(** Lines 196-199: the fragments are added to [curr_message], which is
    shown after each of them. Returns the final [curr_message] and what
    [result.all_messages()] gives once the stream has ended. *)
Fixpoint stream_text (s : stream) (curr_message : string)
  : M (string * list message) :=
  match s with
  | Fragment delta rest =>
      let curr_message := curr_message +:+ delta in
      emit (LiveUpdate curr_message);;
      stream_text rest curr_message
  | Complete all_messages => mret (curr_message, all_messages)
  | Abort e => raise e
  end.

(** Lines 188-202, the body of the inner [try]. *)
Definition turn (graphiti_agent : Agent) (user_input : string) : M unit :=
  emit (ConsolePrint Robot);;
  messages ← get_messages;
  emit (RunStream user_input messages);;
  r ← stream_text (run_stream graphiti_agent user_input messages) "";
  extend r.2.

(** [console.print] reads its text as rich markup. The fixed texts of
    the program are well-formed markup and are printed as they are. Three
    texts put a string from outside between the tags: the message of an
    exception (lines 171 and 206) and, in the troubleshooting table, the
    values of two environment variables (lines 214-215). What rich makes
    of such a text is rich's affair: it prints it, or it raises (a
    [MarkupError] for a closing tag that closes nothing). A [Console]
    gives rich's reply to each of these texts. *)
Definition Console : Type := rendered → outcome unit.

Definition print_interpolated (console : Console) (r : rendered) : M unit :=
  lift (console r);; emit (ConsolePrint r).

(** Lines 204-219, the handler of the inner [try]. *)
Definition report (console : Console) (e : exn) : M unit :=
  let error_msg := exn_str e in
  print_interpolated console (ErrorMessage error_msg);;
  if contains "connection" (lower error_msg)
     || contains "refused" (lower error_msg)
  then print_interpolated console Troubleshooting
  else mret ().

(** Lines 186-219: one guarded turn. What the handler raises is not
    caught again. *)
Definition guarded_turn (console : Console) (graphiti_agent : Agent)
    (user_input : string) : M unit :=
  try_except (turn graphiti_agent user_input) (report console).

(** Lines 176-219: [while True]. Each round reads from [stdin]. *)
Fixpoint session_loop (console : Console) (graphiti_agent : Agent)
    (stdin : list stdin_event) : M unit :=
  emit (ConsolePrint Prompt);;
  match stdin with
  | [] => raise EOFError
  | InputRaises e :: _ => raise e
  | Line user_input :: rest =>
      emit (Input user_input);;
      if bool_decide (lower user_input ∈ exit_words)
      then emit (ConsolePrint Goodbye)
      else (guarded_turn console graphiti_agent user_input;;
            session_loop console graphiti_agent rest)
  end.

(** Lines 160-171: index initialisation. [clear_data] is the reply of
    graphiti-core's [clear_data(driver)]. *)
Definition startup (console : Console) (graphiti_client : Graphiti)
    (clear_data : outcome unit) : M unit :=
  try_except
    (call BuildIndices (build_indices_and_constraints graphiti_client 0);;
     emit (ConsolePrint IndicesBuilt);;
     call ClearData clear_data)
    (fun e => print_interpolated console (UsingExistingIndices (exn_str e))).

(** Line 173: [messages = []] *)
Definition new_messages : M unit := fun _ => ([], [], Return ()).

(** Lines 173-223: the loop inside [try ... finally]. *)
Definition session (console : Console) (graphiti_client : Graphiti)
    (graphiti_agent : Agent) (stdin : list stdin_event) : M unit :=
  new_messages;;
  try_finally
    (session_loop console graphiti_agent stdin)
    (call Close (close graphiti_client);;
     emit (ConsolePrint ConnectionClosed)).

Definition main (console : Console) (graphiti_client : Graphiti)
    (clear_data : outcome unit) (graphiti_agent : Agent)
    (stdin : list stdin_event) : M unit :=
  startup console graphiti_client clear_data;;
  session console graphiti_client graphiti_agent stdin.

(** ** [initialize_graphiti_with_clean_state] (llm_config.py, lines 71-92) *)

Definition initialize_graphiti_with_clean_state (graphiti_client : Graphiti)
    (clear_data_func : option (outcome unit)) : M unit :=
  call BuildIndices (build_indices_and_constraints graphiti_client 0);;
  match clear_data_func with
  | Some clear_data =>
      emit (StdoutPrint "Clearing existing graph data for clean demo...");;
      call ClearData clear_data;;
      emit (StdoutPrint "Graph data cleared successfully.");;
      call BuildIndices (build_indices_and_constraints graphiti_client 1)
  | None => mret ()
  end.

(** ** Configuration (llm_config.py, and [get_model] of agent.py)

    [os.environ] after [load_dotenv()] is a finite map from names to
    values. [create_embedder], [create_llm_client] and [get_model] are
    given by the configuration with which they build their client. *)

(** [os.environ.get(key, fallback)], also [os.getenv(key, fallback)] *)
Definition environ_get (environ : gmap string string) (key fallback : string)
  : string :=
  default fallback (environ !! key).

(** llm_config.py, lines 18-30: (embedding_model, api_key, base_url,
    chat_model) *)
Definition get_lm_studio_config (environ : gmap string string)
  : string * string * string * string :=
  let embedding_model :=
    environ_get environ "OPENAI_EMBEDDING_MODEL"
      "text-embedding-nomic-embed-text-v1.5" in
  let api_key := environ_get environ "OPENAI_API_KEY" "lm-studio" in
  let base_url :=
    environ_get environ "OPENAI_BASE_URL" "http://localhost:1234/v1" in
  let chat_model := environ_get environ "MODEL_CHOICE" "llama-3.2-1b-instruct" in
  (embedding_model, api_key, base_url, chat_model).

Record OpenAIEmbedderConfig : Type := {
  embedding_model : string;
  embedding_dim : nat;
  embedder_api_key : string;
  embedder_base_url : string
}.

Record LLMConfig : Type := {
  model : string;
  small_model : string;
  api_key : string;
  base_url : string
}.

(** Lines 33-49 *)
Definition create_embedder (environ : gmap string string) : OpenAIEmbedderConfig :=
  let '(embedding_model, api_key, base_url, _) := get_lm_studio_config environ in
  {| embedding_model := embedding_model; embedding_dim := 768;
     embedder_api_key := api_key; embedder_base_url := base_url |}.

(** Lines 52-68 *)
Definition create_llm_client (environ : gmap string string) : LLMConfig :=
  let '(_, api_key, base_url, chat_model) := get_lm_studio_config environ in
  {| model := chat_model; small_model := chat_model;
     api_key := api_key; base_url := base_url |}.

(** [x or y] where [x] is [None] or a string and [y] a string *)
Definition py_or (x : option string) (y : string) : string :=
  match x with
  | Some s => if String.eqb s "" then y else s
  | None => y
  end.

(** What [Graphiti(uri, user, password, embedder=.., llm_client=..)] is
    built from. *)
Record GraphitiArgs : Type := {
  uri : string;
  user : string;
  password : string;
  embedder : OpenAIEmbedderConfig;
  llm_client : LLMConfig
}.

Definition ValueError (msg : string) : exn := Exception "ValueError" msg.

(** The constructors of the clients are code of openai and graphiti-core.
    On the arguments they are given they return or raise (openai's client
    raises [OpenAIError] when it finds no API key, and [Graphiti(..)]
    builds such a client of its own). *)
Record Constructors : Type := {
  new_OpenAIEmbedder : OpenAIEmbedderConfig → outcome unit;
  new_OpenAIClient : LLMConfig → outcome unit;
  new_Graphiti : GraphitiArgs → outcome unit
}.

(** Lines 95-121. The embedder and the LLM client are created, in this
    order, after the parameters have been checked; [Graphiti(..)] comes
    last. *)
Definition create_graphiti_client (lib : Constructors)
    (environ : gmap string string)
    (neo4j_uri neo4j_user neo4j_password : option string)
  : outcome GraphitiArgs :=
  let neo4j_uri :=
    py_or neo4j_uri (environ_get environ "NEO4J_URI" "bolt://localhost:7687") in
  let neo4j_user := py_or neo4j_user (environ_get environ "NEO4J_USER" "neo4j") in
  let neo4j_password :=
    py_or neo4j_password (environ_get environ "NEO4J_PASSWORD" "password") in
  if String.eqb neo4j_uri "" || String.eqb neo4j_user ""
     || String.eqb neo4j_password ""
  then Raise (ValueError "NEO4J_URI, NEO4J_USER, and NEO4J_PASSWORD must be set")
  else
    let embedder := create_embedder environ in
    new_OpenAIEmbedder lib embedder;;
    let llm_client := create_llm_client environ in
    new_OpenAIClient lib llm_client;;
    let graphiti :=
      {| uri := neo4j_uri; user := neo4j_user; password := neo4j_password;
         embedder := embedder; llm_client := llm_client |} in
    new_Graphiti lib graphiti;;
    Return graphiti.

(** Lines 124-138: the dictionary of model information. *)
Definition get_model_info (environ : gmap string string) : gmap string string :=
  let '(embedding_model, api_key, base_url, chat_model) :=
    get_lm_studio_config environ in
  list_to_map [("embedding_model", embedding_model);
               ("chat_model", chat_model);
               ("base_url", base_url);
               ("api_key", api_key)].

(** agent.py, lines 37-50: [OpenAIModel(model_choice, provider=
    OpenAIProvider(api_key=.., base_url=..))] *)
Record OpenAIModel : Type := {
  model_name : string;
  provider_api_key : string;
  provider_base_url : string
}.

Definition get_model (environ : gmap string string) : OpenAIModel :=
  let model_choice := environ_get environ "MODEL_CHOICE" "openai/gpt-oss-20b" in
  let base_url :=
    environ_get environ "LMSTUDIO_API_HOST" "http://127.0.0.1:1234/v1" in
  let api_key := environ_get environ "LMSTUDIO_API_KEY" "lm-studio" in
  {| model_name := model_choice; provider_api_key := api_key;
     provider_base_url := base_url |}.

(** agent.py, lines 150-157: [main] reads the connection parameters and
    creates the client. *)
Definition connect (lib : Constructors) (environ : gmap string string)
  : outcome GraphitiArgs :=
  let neo4j_uri := environ_get environ "NEO4J_URI" "bolt://localhost:7687" in
  let neo4j_user := environ_get environ "NEO4J_USER" "neo4j" in
  let neo4j_password := environ_get environ "NEO4J_PASSWORD" "password" in
  create_graphiti_client lib environ
    (Some neo4j_uri) (Some neo4j_user) (Some neo4j_password).

(** ** Vocabulary of the properties *)

(** A raw result the tool can format: [uuid] and [fact] are there and are
    strings (the empty string included), and [source_node_uuid], when
    there, is a string or [None]. *)
Definition well_formed (r : raw_result) : bool :=
  match r with
  | Edge attrs =>
      match attrs !! "uuid", attrs !! "fact" with
      | Some (PStr _), Some (PStr _) =>
          match attrs !! "source_node_uuid" with
          | None | Some PNone | Some (PStr _) => true
          | Some _ => false
          end
      | _, _ => false
      end
  | Plain _ => false
  end.

(** The ways in which the search call fails: it raises an exception, or
    it returns something that is not a non-empty list of well-formed
    results ([None], another non-list, an empty reply, a list with a
    malformed element). A [KeyboardInterrupt] or a cancellation that
    arrives during the call is not a failure of the call. *)
Definition failed (reply : outcome response) : Prop :=
  match reply with
  | Raise (Exception _ _) => True
  | Raise (BaseException _ _) => False
  | Return (Other _) => True
  | Return (Results l) => l = [] ∨ Exists (λ r, well_formed r = false) l
  end.

Definition is_Exception (e : exn) : Prop :=
  match e with Exception _ _ => True | BaseException _ _ => False end.

(** The fragments a stream yields, and how it ends. *)
Fixpoint fragments (s : stream) : list string :=
  match s with
  | Fragment delta rest => delta :: fragments rest
  | Complete _ | Abort _ => []
  end.

Fixpoint ending (s : stream) : outcome (list message) :=
  match s with
  | Fragment _ rest => ending rest
  | Complete all_messages => Return all_messages
  | Abort e => Raise e
  end.

(** In-order concatenation. *)
Definition join (fs : list string) : string := foldr String.append "" fs.

(** The buffer after each of the fragments [fs], starting from [curr]. *)
Fixpoint buffers (curr : string) (fs : list string) : list string :=
  match fs with
  | [] => []
  | f :: fs' => (curr +:+ f) :: buffers (curr +:+ f) fs'
  end.

(** The calls that manage the connection, and how often an event occurs
    in a trace. *)
Definition is_lifecycle (e : event) : bool :=
  match e with
  | BuildIndices | ClearData | Close => true
  | _ => false
  end.

Definition occurrences (e : event) (t : list event) : nat :=
  length (filter (λ x, x = e) t).
#[global] Arguments occurrences : simpl never.

Definition closes (t : list event) : nat := occurrences Close t.

(** A console on which every text can be printed. *)
Definition printable (console : Console) : Prop :=
  ∀ r, console r = Return ().

(** The constructors that [create_graphiti_client] calls for [graphiti],
    all returning. *)
Definition constructed (lib : Constructors) (graphiti : GraphitiArgs) : Prop :=
  new_OpenAIEmbedder lib (embedder graphiti) = Return () ∧
  new_OpenAIClient lib (llm_client graphiti) = Return () ∧
  new_Graphiti lib graphiti = Return ().

(** The client that [create_graphiti_client] is asked for. *)
Definition requested (environ : gmap string string)
    (neo4j_uri neo4j_user neo4j_password : option string) : GraphitiArgs :=
  {| uri := py_or neo4j_uri
              (environ_get environ "NEO4J_URI" "bolt://localhost:7687");
     user := py_or neo4j_user (environ_get environ "NEO4J_USER" "neo4j");
     password := py_or neo4j_password
                   (environ_get environ "NEO4J_PASSWORD" "password");
     embedder := create_embedder environ;
     llm_client := create_llm_client environ |}.

(** A constructor called for [graphiti] raised [e]. *)
Definition refused (lib : Constructors) (graphiti : GraphitiArgs) (e : exn)
  : Prop :=
  new_OpenAIEmbedder lib (embedder graphiti) = Raise e ∨
  new_OpenAIClient lib (llm_client graphiti) = Raise e ∨
  new_Graphiti lib graphiti = Raise e.

(** What is printed for a failed turn when it can be printed (lines
    206-219). *)
Definition diagnostic (error_msg : string) : list event :=
  ConsolePrint (ErrorMessage error_msg) ::
  (if contains "connection" (lower error_msg)
      || contains "refused" (lower error_msg)
   then [ConsolePrint Troubleshooting] else []).

(** The timestamp field made from an attribute: absent when the attribute
    is missing or falsy, its [str()] otherwise. *)
Definition stamp (attr : option pyval) : option string :=
  match attr with
  | Some v => if truthy v then Some (py_str v) else None
  | None => None
  end.

(** The queries sent to the store, the prompts given to the agent and the
    lines read, in the order of the trace; the lines of a script. *)
Definition searched (t : list event) : list string :=
  omap (λ e, match e with Search query => Some query | _ => None end) t.

Definition prompts (t : list event) : list string :=
  omap (λ e, match e with RunStream u _ => Some u | _ => None end) t.

Definition inputs (t : list event) : list string :=
  omap (λ e, match e with Input line => Some line | _ => None end) t.

Definition lines (stdin : list stdin_event) : list string :=
  omap (λ ev, match ev with Line s => Some s | InputRaises _ => None end) stdin.

(** The number of turns a script gives rise to: its ordinary lines up to
    the first exit word or raising read. *)
Fixpoint turns (stdin : list stdin_event) : nat :=
  match stdin with
  | Line user_input :: rest =>
      if bool_decide (lower user_input ∈ exit_words) then 0 else S (turns rest)
  | _ => 0
  end.

(** A call that was interrupted: it raised something outside [Exception]. *)
Definition interrupted {A} (o : outcome A) : Prop :=
  match o with
  | Raise (BaseException _ _) => True
  | _ => False
  end.

(** An argument that is left out or empty while its variable is set to
    the empty string: nothing is left to fall back on. *)
Definition unset (environ : gmap string string) (arg : option string)
    (key : string) : Prop :=
  (arg = None ∨ arg = Some "") ∧ environ !! key = Some "".

(** An input event after which the loop reads nothing more. *)
Definition ends_session (ev : stdin_event) : Prop :=
  match ev with
  | Line user_input => lower user_input ∈ exit_words
  | InputRaises _ => True
  end.

(** A line that is no exit word. *)
Definition ordinary (ev : stdin_event) : Prop :=
  match ev with
  | Line user_input => lower user_input ∉ exit_words
  | InputRaises _ => False
  end.

(** ** Concrete collaborators, for evaluation *)

(** The texts of CPython for the replies whose objects are instances of
    graphiti-core's [EntityEdge]. The report of pydantic, which depends
    on its version, is an argument. *)
Definition type_of (v : pyval) : string :=
  match v with
  | PNone => "NoneType"
  | PStr _ => "str"
  | PInt _ => "int"
  | PDatetime _ => "datetime.datetime"
  end.

Definition cpython (pydantic_report : pyval → pyval → pyval → string) : Texts :=
  λ what,
    match what with
    | NoAttribute (Edge _) name =>
        "'EntityEdge' object has no attribute '" +:+ name +:+ "'"
    | NoAttribute (Plain v) name =>
        "'" +:+ type_of v +:+ "' object has no attribute '" +:+ name +:+ "'"
    | NoLen v => "object of type '" +:+ type_of v +:+ "' has no len()"
    | NotIterable v => "'" +:+ type_of v +:+ "' object is not iterable"
    | Invalid u f src => pydantic_report u f src
    end.

(** No evaluation below has pydantic refuse a value, so its report is
    left empty there. *)
Definition python : Texts := cpython (λ _ _ _, "").

(** A console that prints every text, and rich on the message
    "bad [/x] tag": the closing tag closes nothing, so the text of line
    206 and the text of line 171 with this message raise [MarkupError];
    the other texts used below are printed. *)
Definition plain : Console := λ _, Return ().

Definition MarkupError (position : string) : exn :=
  Exception "MarkupError"
    ("closing tag '[/x]' at position " +:+ position
     +:+ " doesn't match any open tag").

Definition rich : Console :=
  λ r,
    match r with
    | ErrorMessage msg =>
        if String.eqb msg "bad [/x] tag" then Raise (MarkupError "35")
        else Return ()
    | UsingExistingIndices msg =>
        if String.eqb msg "bad [/x] tag" then Raise (MarkupError "40")
        else Return ()
    | _ => Return ()
    end.

(** Constructors that all return. *)
Definition willing : Constructors :=
  {| new_OpenAIEmbedder := λ _, Return ();
     new_OpenAIClient := λ _, Return ();
     new_Graphiti := λ _, Return () |}.

Definition edge (l : list (string * pyval)) : raw_result := Edge (list_to_map l).

(** A store that gives [reply] to every search and whose index and
    connection calls succeed. *)
Definition store_of (reply : outcome response) : Graphiti :=
  {| search := fun _ => reply;
     build_indices_and_constraints := fun _ => Return ();
     close := Return () |}.

(** A store whose index build is interrupted from the keyboard. *)
Definition interrupted_store : Graphiti :=
  {| search := fun _ => Return (Results []);
     build_indices_and_constraints := fun _ => Raise KeyboardInterrupt;
     close := Return () |}.

Definition two_records : list raw_result :=
  [ edge [("uuid", PStr "1"); ("fact", PStr "A existed in 2020")];
    edge [("uuid", PStr ""); ("fact", PStr "bad")] ].

Definition no_uuid : raw_result := edge [("fact", PStr "C has no identifier")].

(** The attributes of an edge that became valid in 2020 and whose
    [invalid_at] is the empty string. *)
Definition dated_attrs : gmap string pyval :=
  list_to_map [("uuid", PStr "1"); ("fact", PStr "A");
               ("valid_at", PDatetime "2020-01-01 00:00:00");
               ("invalid_at", PStr "")].

Definition fact_of (u f : string) : GraphitiSearchResult :=
  {| uuid := u; fact := f; valid_at := None; invalid_at := None;
     source_node_uuid := None |}.

(** An agent that answers without the tool. As in pydantic-ai,
    [all_messages()] is the message history the run was given followed by
    the messages of the run. *)
Definition echo : Agent :=
  {| run_stream := fun user_prompt message_history =>
       Fragment "Hel" (Fragment "lo"
         (Complete (message_history
                    ++ [UserPrompt user_prompt; AssistantText "Hello"]))) |}.

(** An agent whose model calls [search_graphiti] before it answers: the
    run has four messages. *)
Definition tool_user : Agent :=
  {| run_stream := fun user_prompt message_history =>
       Fragment "Nothing found."
         (Complete (message_history
                    ++ [UserPrompt user_prompt; ToolCall user_prompt;
                        ToolReturn []; AssistantText "Nothing found."])) |}.

(** A backend that cannot be reached, and one that stops after the
    fragment "Hel" by raising [e]. *)
Definition unreachable : Agent :=
  {| run_stream := fun _ _ =>
       Abort (Exception "APIConnectionError" "Connection error.") |}.

Definition cut_off (e : exn) : Agent :=
  {| run_stream := fun _ _ => Fragment "Hel" (Abort e) |}.

(** A backend that fails with a message that holds a closing tag, and a
    store whose index build fails with such a message. *)
Definition garbled : Agent :=
  {| run_stream := fun _ _ =>
       Abort (Exception "UnexpectedModelBehavior" "bad [/x] tag") |}.

Definition refusing_store : Graphiti :=
  {| search := fun _ => Return (Results []);
     build_indices_and_constraints :=
       fun _ => Raise (Exception "ClientError" "bad [/x] tag");
     close := Return () |}.

Definition hello_world : stream :=
  Fragment "Hel" (Fragment "lo, " (Fragment "world"
    (Complete [UserPrompt "hi"; AssistantText "Hello, world"]))).

(** ** Lemmas on the retrieval tool *)

#[local] Arguments py_str : simpl never.
#[local] Arguments truthy : simpl never.

Ltac case_attr :=
  match goal with
  | |- context [@lookup _ _ _ _ ?k ?attrs] =>
      let E := fresh "E" in
      destruct (@lookup _ _ _ _ k attrs) as [?|] eqn:E; cbn
  | |- context [validate_str ?v] => destruct v; cbn
  | |- context [validate_optional_str ?v] => destruct v; cbn
  | |- context [match ?v with PNone => _ | _ => _ end] => destruct v; cbn
  end.

Ltac run :=
  unfold try_except, try_finally, call, emit, lift, raise, get_messages,
    extend, print_interpolated, mbind, M_bind, outcome_bind, mret, M_ret,
    outcome_ret, trace, history, result; cbn.

Section Tool.

Context (texts : Texts).

Lemma format_result_raises (r : raw_result) (e : exn) :
  format_result texts r = Raise e → is_Exception e.
Proof.
  destruct r as [attrs|v];
    unfold format_result, new_GraphitiSearchResult; cbn;
    [|intros [= <-]; exact I].
  repeat (case_attr; try (intros [= <-]; exact I); try discriminate).
Qed.

Lemma format_result_well_formed (r : raw_result) :
  well_formed r = true → ∃ f, format_result texts r = Return f.
Proof.
  destruct r as [attrs|v];
    unfold format_result, new_GraphitiSearchResult, well_formed; cbn;
    [|discriminate].
  repeat (case_attr; try discriminate); eauto.
Qed.

Lemma format_result_malformed (r : raw_result) :
  well_formed r = false → ∃ c m, format_result texts r = Raise (Exception c m).
Proof.
  intros Hwf. destruct (format_result texts r) as [f|e] eqn:E.
  - revert Hwf E.
    destruct r as [attrs|v];
      unfold format_result, new_GraphitiSearchResult, well_formed; cbn;
      [|discriminate].
    repeat (case_attr; try discriminate).
  - apply format_result_raises in E. destruct e; [eauto|destruct E].
Qed.

(** What a formatted result holds. *)
Lemma format_result_fields (attrs : gmap string pyval) (f : GraphitiSearchResult) :
  format_result texts (Edge attrs) = Return f →
  attrs !! "uuid" = Some (PStr (uuid f)) ∧
  attrs !! "fact" = Some (PStr (fact f)) ∧
  (attrs !! "valid_at" = None → valid_at f = None) ∧
  (attrs !! "invalid_at" = None → invalid_at f = None) ∧
  (attrs !! "source_node_uuid" = None → source_node_uuid f = None).
Proof.
  unfold format_result, new_GraphitiSearchResult; cbn.
  repeat (case_attr; try discriminate);
    repeat case_match; intros [= <-]; cbn; repeat split; congruence.
Qed.

Lemma format_results_raises (l : list raw_result)
    (acc : list GraphitiSearchResult) (e : exn) :
  format_results texts l acc = Raise e → is_Exception e.
Proof.
  revert acc. induction l as [|r l IH]; intros acc; cbn; [discriminate|].
  destruct (format_result texts r) as [f|e'] eqn:E; cbn.
  - apply IH.
  - intros [= <-]. eapply format_result_raises, E.
Qed.

Lemma format_results_well_formed (l : list raw_result)
    (acc : list GraphitiSearchResult) :
  Forall (λ r, well_formed r = true) l →
  ∃ fs, format_results texts l acc = Return (acc ++ fs) ∧
        Forall2 (λ r f, format_result texts r = Return f) l fs.
Proof.
  intros Hl. revert acc. induction Hl as [|r l Hr Hl IH]; intros acc; cbn.
  - exists []. rewrite app_nil_r. split; constructor.
  - destruct (format_result_well_formed r Hr) as [f Hf]. rewrite Hf. cbn.
    destruct (IH (acc ++ [f])) as (fs & -> & Hfs).
    exists (f :: fs). rewrite <- app_assoc. split; [reflexivity|].
    constructor; assumption.
Qed.

Lemma format_results_malformed (l : list raw_result)
    (acc : list GraphitiSearchResult) :
  Exists (λ r, well_formed r = false) l →
  ∃ c m, format_results texts l acc = Raise (Exception c m).
Proof.
  intros Hl.
  destruct (format_results texts l acc) as [fs|e] eqn:E.
  - exfalso. revert acc fs E.
    induction Hl as [r l Hr|r l Hl IH]; intros acc fs; cbn.
    + destruct (format_result_malformed r Hr) as (c & m & ->). discriminate.
    + destruct (format_result texts r) as [f|e]; cbn; [apply IH|discriminate].
  - apply format_results_raises in E. destruct e; [eauto|destruct E].
Qed.

(** The tool on each kind of reply. *)
Lemma search_graphiti_raised (graphiti : Graphiti) (query : string)
    (messages : list message) (c m : string) :
  search graphiti query = Raise (Exception c m) →
  search_graphiti texts graphiti query messages =
    ([LogInfo ("Searching Graphiti with query: " +:+ query); Search query;
      LogError ("Error searching Graphiti: " +:+ c +:+ ": " +:+ m)],
     messages, Return []).
Proof. intros H. unfold search_graphiti, try_except. cbn. rewrite H. reflexivity. Qed.

Lemma search_graphiti_results (graphiti : Graphiti) (query : string)
    (messages : list message) (l : list raw_result) :
  search graphiti query = Return (Results l) →
  search_graphiti texts graphiti query messages =
    match format_results texts l [] with
    | Return fs =>
        ([LogInfo ("Searching Graphiti with query: " +:+ query); Search query;
          LogInfo ("Found " +:+ pretty (length l) +:+ " results")],
         messages, Return fs)
    | Raise (Exception c m) =>
        ([LogInfo ("Searching Graphiti with query: " +:+ query); Search query;
          LogInfo ("Found " +:+ pretty (length l) +:+ " results");
          LogError ("Error searching Graphiti: " +:+ c +:+ ": " +:+ m)],
         messages, Return [])
    | Raise e =>
        ([LogInfo ("Searching Graphiti with query: " +:+ query); Search query;
          LogInfo ("Found " +:+ pretty (length l) +:+ " results")],
         messages, Raise e)
    end.
Proof.
  intros H. unfold search_graphiti. run. rewrite H. cbn.
  destruct (format_results texts l []) as [fs|[c m|c m]]; reflexivity.
Qed.

Lemma chars_malformed (s : string) :
  s ≠ "" → Exists (λ r, well_formed r = false) (chars s).
Proof. destruct s; [congruence|]. intros _. cbn. by left. Qed.

Lemma search_graphiti_failed (graphiti : Graphiti) (query : string)
    (messages : list message) :
  failed (search graphiti query) →
  result (search_graphiti texts graphiti query messages) = Return [] ∧
  history (search_graphiti texts graphiti query messages) = messages.
Proof.
  destruct (search graphiti query) as [[l|v]|[c m|c m]] eqn:E; cbn;
    [| | |intros []].
  - rewrite (search_graphiti_results _ _ _ _ E).
    intros [->|Hl]; [by cbn|].
    destruct (format_results_malformed l [] Hl) as (c & m & ->). by cbn.
  - intros _. unfold search_graphiti. run. rewrite E.
    destruct v as [|s| |]; try by cbn.
    destruct (decide (s = "")) as [->|Hs]; [by cbn|].
    cbn. destruct (format_results_malformed (chars s) [] (chars_malformed s Hs))
      as (c & m & ->). by cbn.
  - intros _. by rewrite (search_graphiti_raised _ _ _ _ _ E).
Qed.

End Tool.

Lemma lacking_malformed (r : raw_result) :
  hasattr r "uuid" = false ∨ hasattr r "fact" = false → well_formed r = false.
Proof.
  destruct r as [attrs|v]; [|reflexivity]. unfold hasattr, well_formed.
  destruct (attrs !! "uuid") as [[]|]; destruct (attrs !! "fact") as [[]|];
    intros [?|?]; congruence.
Qed.

(** Whatever the store replies, the tool raises no [Exception]: the only
    thing that can leave it is a signal outside [Exception] that the
    search call itself raised. *)
Lemma search_graphiti_raises_only_signals (texts : Texts)
    (graphiti : Graphiti) (query : string) (messages : list message)
    (e : exn) :
  result (search_graphiti texts graphiti query messages) = Raise e →
  search graphiti query = Raise e ∧ ¬ is_Exception e.
Proof.
  destruct (search graphiti query) as [[l|v]|[c m|c m]] eqn:E.
  - rewrite (search_graphiti_results _ _ _ _ _ E).
    destruct (format_results texts l []) as [fs|[c m|c m]] eqn:Ef; cbn;
      [discriminate..|].
    by apply format_results_raises in Ef.
  - unfold search_graphiti. run. rewrite E.
    destruct v as [|s| |]; cbn; try discriminate.
    destruct (format_results texts (chars s) []) as [fs|[c m|c m]] eqn:Ef; cbn;
      [discriminate..|].
    by apply format_results_raises in Ef.
  - by rewrite (search_graphiti_raised _ _ _ _ _ _ E).
  - unfold search_graphiti. run. rewrite E. cbn. intros H.
    injection H as <-. split; [reflexivity|intros []].
Qed.

(** ** Lemmas on the session *)

Lemma append_assoc (a b c : string) : (a +:+ b) +:+ c = a +:+ (b +:+ c).
Proof.
  induction a as [|x a IH]; [reflexivity|].
  change (String x ((a +:+ b) +:+ c) = String x (a +:+ (b +:+ c))).
  by rewrite IH.
Qed.

Lemma append_nil_r (a : string) : a +:+ "" = a.
Proof.
  induction a as [|x a IH]; [reflexivity|].
  change (String x (a +:+ "") = String x a). by rewrite IH.
Qed.

Lemma buffers_take (curr : string) (fs : list string) :
  buffers curr fs = (λ k, curr +:+ join (take (S k) fs)) <$> seq 0 (length fs).
Proof.
  revert curr. induction fs as [|f fs IH]; intros curr; [reflexivity|].
  cbn [buffers length seq fmap list_fmap]. f_equal.
  - cbn. destruct fs; cbn; by rewrite ?append_nil_r.
  - rewrite IH, <- fmap_S_seq, <- list_fmap_compose.
    apply list_fmap_ext. intros _ k _. cbn. by rewrite append_assoc.
Qed.

Lemma stream_text_eq (s : stream) (curr : string) (messages : list message) :
  stream_text s curr messages =
    (LiveUpdate <$> buffers curr (fragments s), messages,
     match ending s with
     | Return all_messages => Return (curr +:+ join (fragments s), all_messages)
     | Raise e => Raise e
     end).
Proof.
  revert curr. induction s as [delta rest IH|all|e]; intros curr; cbn.
  - run. rewrite IH. cbn. destruct (ending rest); by rewrite ?append_assoc.
  - by rewrite append_nil_r.
  - reflexivity.
Qed.

Section Session.

Context (console : Console) (graphiti_client : Graphiti) (graphiti_agent : Agent).

Lemma print_interpolated_eq (r : rendered) (messages : list message) :
  print_interpolated console r messages =
    match console r with
    | Return _ => ([ConsolePrint r], messages, Return ())
    | Raise e => ([], messages, Raise e)
    end.
Proof. run. by destruct (console r) as [[]|e]. Qed.

(** The handler prints the message, then the panel if the message calls
    for it; it stops at the first text that cannot be printed. *)
Lemma report_eq (e : exn) (messages : list message) :
  report console e messages =
    match console (ErrorMessage (exn_str e)) with
    | Raise e' => ([], messages, Raise e')
    | Return _ =>
        if contains "connection" (lower (exn_str e))
           || contains "refused" (lower (exn_str e))
        then match console Troubleshooting with
             | Return _ =>
                 ([ConsolePrint (ErrorMessage (exn_str e));
                   ConsolePrint Troubleshooting], messages, Return ())
             | Raise e' =>
                 ([ConsolePrint (ErrorMessage (exn_str e))], messages, Raise e')
             end
        else ([ConsolePrint (ErrorMessage (exn_str e))], messages, Return ())
    end.
Proof.
  unfold report. run.
  destruct (console (ErrorMessage _)) as [[]|e']; cbn; [|reflexivity].
  destruct (_ || _); [|reflexivity]. run.
  by destruct (console Troubleshooting) as [[]|e'].
Qed.

Lemma report_history (e : exn) (messages : list message) :
  history (report console e messages) = messages.
Proof.
  rewrite report_eq.
  destruct (console (ErrorMessage _)) as [[]|e']; [|reflexivity].
  destruct (_ || _); [|reflexivity].
  by destruct (console Troubleshooting) as [[]|e'].
Qed.

(** When its texts can be printed, the handler prints the diagnostic and
    returns. *)
Lemma report_printed (e : exn) (messages : list message) :
  console (ErrorMessage (exn_str e)) = Return () →
  console Troubleshooting = Return () →
  report console e messages = (diagnostic (exn_str e), messages, Return ()).
Proof.
  intros H1 H2. rewrite report_eq, H1, H2. unfold diagnostic.
  by destruct (_ || _).
Qed.

Lemma guarded_turn_eq (user_input : string)
    (messages : list message) :
  guarded_turn console graphiti_agent user_input messages =
    let s := run_stream graphiti_agent user_input messages in
    let shown := [ConsolePrint Robot; RunStream user_input messages]
                 ++ (LiveUpdate <$> buffers "" (fragments s)) in
    match ending s with
    | Return all_messages => (shown, messages ++ all_messages, Return ())
    | Raise (Exception c m) =>
        let r := report console (Exception c m) messages in
        (shown ++ trace r, messages, result r)
    | Raise e => (shown, messages, Raise e)
    end.
Proof.
  unfold guarded_turn, turn.
  unfold try_except, mbind, M_bind, emit, get_messages, extend; cbn.
  rewrite stream_text_eq. cbn.
  destruct (ending _) as [all|[c m|c m]]; cbn; rewrite ?app_nil_r;
    [reflexivity| |reflexivity].
  pose proof (report_history (Exception c m) messages) as Hh.
  destruct (report console _ _) as [[t messages'] o].
  unfold history, trace, result in *; cbn in *. by subst.
Qed.

Lemma session_loop_exit (user_input : string)
    (rest : list stdin_event) (messages : list message) :
  lower user_input ∈ exit_words →
  session_loop console graphiti_agent (Line user_input :: rest) messages =
    ([ConsolePrint Prompt; Input user_input; ConsolePrint Goodbye],
     messages, Return ()).
Proof.
  intros H. cbn [session_loop]. rewrite bool_decide_eq_true_2 by exact H.
  reflexivity.
Qed.

Lemma session_loop_turn (user_input : string)
    (rest : list stdin_event) (messages : list message) :
  lower user_input ∉ exit_words →
  session_loop console graphiti_agent (Line user_input :: rest) messages =
    match guarded_turn console graphiti_agent user_input messages with
    | (t, messages', Return _) =>
        let r := session_loop console graphiti_agent rest messages' in
        ([ConsolePrint Prompt; Input user_input] ++ t ++ trace r,
         history r, result r)
    | (t, messages', Raise e) =>
        ([ConsolePrint Prompt; Input user_input] ++ t, messages', Raise e)
    end.
Proof.
  intros H. cbn [session_loop]. rewrite bool_decide_eq_false_2 by exact H.
  run. destruct (guarded_turn _ _ _ _) as [[t messages'] [[]|e]]; [|reflexivity].
  by destruct (session_loop _ _ _ _) as [[t' messages''] o].
Qed.

(** The loop makes no call that manages the connection. *)
Lemma occurrences_app (e : event) (t t' : list event) :
  occurrences e (t ++ t') = occurrences e t + occurrences e t'.
Proof. unfold occurrences. by rewrite filter_app, length_app. Qed.

Lemma occurrences_quiet (e : event) (t : list event) :
  is_lifecycle e = true →
  Forall (λ x, is_lifecycle x = false) t →
  occurrences e t = 0.
Proof.
  intros He Ht. unfold occurrences.
  induction Ht as [|x t Hx Ht IH]; [reflexivity|].
  rewrite filter_cons. destruct (decide (x = e)) as [->|_]; [congruence|exact IH].
Qed.

Lemma diagnostic_quiet (error_msg : string) :
  Forall (λ x, is_lifecycle x = false) (diagnostic error_msg).
Proof. unfold diagnostic. destruct (_ || _); repeat constructor. Qed.

Lemma report_quiet (e : exn) (messages : list message) :
  Forall (λ x, is_lifecycle x = false) (trace (report console e messages)).
Proof.
  rewrite report_eq.
  destruct (console (ErrorMessage _)) as [[]|e']; [|constructor].
  destruct (_ || _); [|repeat constructor].
  destruct (console Troubleshooting) as [[]|e']; repeat constructor.
Qed.

Lemma guarded_turn_quiet (user_input : string)
    (messages : list message) :
  Forall (λ x, is_lifecycle x = false)
    (trace (guarded_turn console graphiti_agent user_input messages)).
Proof.
  rewrite guarded_turn_eq. cbn zeta.
  assert (∀ l, Forall (λ x, is_lifecycle x = false)
                 ([ConsolePrint Robot; RunStream user_input messages]
                  ++ (LiveUpdate <$> l))) as Hshown.
  { intros l. apply Forall_app. split; [repeat constructor|].
    apply Forall_fmap, Forall_true. reflexivity. }
  destruct (ending _) as [all|[c m|c m]]; unfold trace at 1; cbn [fst];
    [apply Hshown| |apply Hshown].
  apply Forall_app. split; [apply Hshown|apply report_quiet].
Qed.

Lemma session_loop_quiet (stdin : list stdin_event)
    (messages : list message) :
  Forall (λ x, is_lifecycle x = false)
    (trace (session_loop console graphiti_agent stdin messages)).
Proof.
  revert messages.
  induction stdin as [|[user_input|e] rest IH]; intros messages;
    [repeat constructor| |repeat constructor].
  destruct (decide (lower user_input ∈ exit_words)) as [H|H].
  - rewrite session_loop_exit by exact H. repeat constructor.
  - rewrite session_loop_turn by exact H.
    pose proof (guarded_turn_quiet user_input messages) as Ht.
    destruct (guarded_turn _ _ _ _) as [[t messages'] [[]|e]];
      unfold trace in *; cbn [fst] in *.
    + apply Forall_app. split; [repeat constructor|].
      apply Forall_app. split; [exact Ht|apply IH].
    + apply Forall_app. split; [repeat constructor|exact Ht].
Qed.

Lemma trace_emit_bind {A} (e : event) (k : M A) (messages : list message) :
  trace ((emit e;; k) messages) = e :: trace (k messages).
Proof. run. by destruct (k messages) as [[t messages'] o]. Qed.

(** The loop begins by prompting. *)
Lemma session_loop_prompts (stdin : list stdin_event)
    (messages : list message) :
  ∃ t, trace (session_loop console graphiti_agent stdin messages)
       = ConsolePrint Prompt :: t.
Proof.
  destruct stdin as [|[u|e] rest]; cbn [session_loop];
    rewrite trace_emit_bind; eauto.
Qed.

(** The session: the loop on a fresh history, then the [finally] block. *)
Lemma session_eq (stdin : list stdin_event) (messages : list message) :
  session console graphiti_client graphiti_agent stdin messages =
    let r := session_loop console graphiti_agent stdin [] in
    match close graphiti_client with
    | Return _ =>
        (trace r ++ [Close; ConsolePrint ConnectionClosed], history r, result r)
    | Raise e => (trace r ++ [Close], history r, Raise e)
    end.
Proof.
  unfold session, new_messages. run.
  destruct (session_loop _ _ _ _) as [[t messages'] o]. cbn.
  destruct (close graphiti_client) as [[]|e]; cbn; by destruct o.
Qed.

Lemma session_closes_once (stdin : list stdin_event) (messages : list message) :
  closes (trace (session console graphiti_client graphiti_agent stdin messages)) = 1.
Proof.
  rewrite session_eq. cbn zeta. unfold closes.
  pose proof (occurrences_quiet Close _ eq_refl
                (session_loop_quiet stdin [])) as H.
  destruct (close graphiti_client) as [[]|e]; unfold trace in *; cbn [fst];
    rewrite occurrences_app, H; reflexivity.
Qed.

Lemma session_never_builds (stdin : list stdin_event) (messages : list message) :
  occurrences BuildIndices
    (trace (session console graphiti_client graphiti_agent stdin messages)) = 0.
Proof.
  rewrite session_eq. cbn zeta.
  pose proof (occurrences_quiet BuildIndices _ eq_refl
                (session_loop_quiet stdin [])) as H.
  destruct (close graphiti_client) as [[]|e]; unfold trace in *; cbn [fst];
    rewrite occurrences_app, H; reflexivity.
Qed.

(** Index initialisation: a failure that is an [Exception] is reported,
    if the report can be printed; nothing else is caught. *)
Lemma startup_eq (clear_data : outcome unit)
    (messages : list message) :
  startup console graphiti_client clear_data messages =
    match build_indices_and_constraints graphiti_client 0 with
    | Return _ =>
        match clear_data with
        | Return _ =>
            ([BuildIndices; ConsolePrint IndicesBuilt; ClearData],
             messages, Return ())
        | Raise (Exception c m) =>
            match console (UsingExistingIndices m) with
            | Return _ =>
                ([BuildIndices; ConsolePrint IndicesBuilt; ClearData;
                  ConsolePrint (UsingExistingIndices m)], messages, Return ())
            | Raise e =>
                ([BuildIndices; ConsolePrint IndicesBuilt; ClearData],
                 messages, Raise e)
            end
        | Raise e =>
            ([BuildIndices; ConsolePrint IndicesBuilt; ClearData],
             messages, Raise e)
        end
    | Raise (Exception c m) =>
        match console (UsingExistingIndices m) with
        | Return _ =>
            ([BuildIndices; ConsolePrint (UsingExistingIndices m)],
             messages, Return ())
        | Raise e => ([BuildIndices], messages, Raise e)
        end
    | Raise e => ([BuildIndices], messages, Raise e)
    end.
Proof.
  unfold startup. run.
  destruct (build_indices_and_constraints _ _) as [[]|[c m|c m]]; cbn;
    [|by destruct (console _) as [[]|e]|reflexivity].
  destruct clear_data as [[]|[c m|c m]]; cbn; try reflexivity.
  by destruct (console _) as [[]|e].
Qed.

(** Index initialisation leaves the history alone, builds the indices
    once, clears the data once if that build returned, never closes the
    connection, reads nothing and does not run the agent. *)
Lemma startup_facts (clear_data : outcome unit) (messages : list message) :
  let r := startup console graphiti_client clear_data messages in
  history r = messages ∧
  occurrences BuildIndices (trace r) = 1 ∧
  occurrences ClearData (trace r) =
    match build_indices_and_constraints graphiti_client 0 with
    | Return _ => 1
    | Raise _ => 0
    end ∧
  occurrences Close (trace r) = 0 ∧
  inputs (trace r) = [] ∧
  prompts (trace r) = [].
Proof.
  cbn zeta. rewrite startup_eq.
  destruct (build_indices_and_constraints _ _) as [[]|[c m|c m]];
    [destruct clear_data as [[]|[c m|c m]]|..];
    try destruct (console _) as [[]|e]; by repeat split.
Qed.

Lemma main_eq (clear_data : outcome unit) (stdin : list stdin_event)
    (messages : list message) :
  main console graphiti_client clear_data graphiti_agent stdin messages =
    let r := startup console graphiti_client clear_data messages in
    match result r with
    | Return _ =>
        let r' := session console graphiti_client graphiti_agent stdin messages in
        (trace r ++ trace r', history r', result r')
    | Raise e => (trace r, messages, Raise e)
    end.
Proof.
  unfold main.
  pose proof (startup_facts clear_data messages) as [Hh _].
  unfold mbind, M_bind. cbn zeta.
  destruct (startup _ _ _ _) as [[t messages'] [[]|e]];
    unfold history, trace, result in *; cbn [fst snd] in *; subst;
    [|reflexivity].
  by destruct (session _ _ _ _ _) as [[t' messages''] o].
Qed.

End Session.

(** ** The claims *)

(** C1. Whenever the fact store's search call fails (it raises an
    exception, or it returns [None], something malformed or nothing),
    [search_graphiti] returns the empty list: nothing is raised to the
    caller, and the history is not touched. *)
Theorem retrieve_absorbs_search_failure (texts : Texts) (graphiti : Graphiti)
    (query : string) (messages : list message) :
  failed (search graphiti query) →
  result (search_graphiti texts graphiti query messages) = Return [] ∧
  history (search_graphiti texts graphiti query messages) = messages.
Proof. apply search_graphiti_failed. Qed.

Lemma retrieve_absorbs_search_failure_witness :
  result (search_graphiti python (store_of (Return (Other PNone))) "llama" []) = Return [] ∧
  history (search_graphiti python (store_of (Return (Other PNone))) "llama" []) = [].
Proof.
  apply (retrieve_absorbs_search_failure python
           (store_of (Return (Other PNone)))).
  simpl. exact I.
Defined.

(** C2, as the specification states it, fails: for the reply with the
    records (id "1", "A existed in 2020") and (id "", "bad") the tool
    returns both records, not only the first. *)
Lemma empty_identifier_is_kept :
  result (search_graphiti python (store_of (Return (Results two_records))) "q" [])
    = Return [fact_of "1" "A existed in 2020"; fact_of "" "bad"] ∧
  ¬ ∃ f, result (search_graphiti python (store_of (Return (Results two_records))) "q" [])
           = Return [f].
Proof.
  assert (result (search_graphiti python (store_of (Return (Results two_records))) "q" [])
          = Return [fact_of "1" "A existed in 2020"; fact_of "" "bad"]) as H
    by (vm_compute; reflexivity).
  split; [exact H|]. rewrite H. intros [f [=]].
Qed.

(** C2, amended. A raw result is formatted exactly when its [uuid] and
    [fact] are present and are strings, the empty string included (and
    [source_node_uuid], if present, is a string or [None]); formatting
    any other raw result raises an [Exception] inside the tool, no record
    is dropped on its own. Absent optional attributes leave their fields
    [None]. A reply all of whose records are well formed is returned
    record by record, in order; for the two records of the example both
    are returned. *)
Theorem normalization_keeps_string_records (texts : Texts) :
  (∀ r, well_formed r = true ↔ ∃ f, format_result texts r = Return f) ∧
  (∀ r, well_formed r = false → ∃ c m, format_result texts r = Raise (Exception c m)) ∧
  (∀ attrs f,
     format_result texts (Edge attrs) = Return f →
     attrs !! "uuid" = Some (PStr (uuid f)) ∧
     attrs !! "fact" = Some (PStr (fact f)) ∧
     (attrs !! "valid_at" = None → valid_at f = None) ∧
     (attrs !! "invalid_at" = None → invalid_at f = None) ∧
     (attrs !! "source_node_uuid" = None → source_node_uuid f = None)) ∧
  (∀ graphiti query messages l,
     search graphiti query = Return (Results l) →
     Forall (λ r, well_formed r = true) l →
     ∃ fs, result (search_graphiti texts graphiti query messages) = Return fs ∧
           Forall2 (λ r f, format_result texts r = Return f) l fs) ∧
  result (search_graphiti texts (store_of (Return (Results two_records))) "q" [])
    = Return [fact_of "1" "A existed in 2020"; fact_of "" "bad"].
Proof.
  split; [|split; [|split; [|split]]].
  - intros r. split; [apply format_result_well_formed|].
    intros [f Hf]. destruct (well_formed r) eqn:E; [reflexivity|].
    destruct (format_result_malformed texts r E) as (c & m & H). congruence.
  - apply format_result_malformed.
  - apply format_result_fields.
  - intros graphiti query messages l Hs Hl.
    rewrite (search_graphiti_results _ _ _ _ _ Hs).
    destruct (format_results_well_formed texts l [] Hl) as (fs & -> & Hfs).
    exists fs. split; [reflexivity|exact Hfs].
  - vm_compute. reflexivity.
Qed.

Lemma normalization_keeps_string_records_witness :
  ∃ fs, result (search_graphiti python (store_of (Return (Results two_records))) "q" [])
          = Return fs ∧
        Forall2 (λ r f, format_result python r = Return f) two_records fs.
Proof.
  apply (proj1 (proj2 (proj2 (proj2 (normalization_keeps_string_records python))))
           (store_of (Return (Results two_records))) "q" [] two_records).
  - reflexivity.
  - repeat constructor.
Defined.

(** C10. If a reply that the search call returned contains a raw result
    without a [uuid] attribute or without a [fact] attribute, the tool
    returns the empty list: the well-formed results of that reply are
    lost with it. *)
Theorem one_malformed_record_empties_response (texts : Texts)
    (graphiti : Graphiti) (query : string) (messages : list message)
    (l : list raw_result) :
  search graphiti query = Return (Results l) →
  Exists (λ r, hasattr r "uuid" = false ∨ hasattr r "fact" = false) l →
  result (search_graphiti texts graphiti query messages) = Return [].
Proof.
  intros Hs Hl. apply search_graphiti_failed. rewrite Hs. right.
  eapply Exists_impl; [exact Hl|]. intros r. apply lacking_malformed.
Qed.

Lemma one_malformed_record_empties_response_witness :
  result (search_graphiti python
            (store_of (Return (Results (two_records ++ [no_uuid])))) "q" [])
    = Return [].
Proof.
  apply (one_malformed_record_empties_response python
           (store_of (Return (Results (two_records ++ [no_uuid]))))
           "q" [] (two_records ++ [no_uuid])).
  - reflexivity.
  - apply Exists_app. right. left. left. vm_compute. reflexivity.
Defined.

(** C3, as the specification states it, fails: a successful turn need not
    add two entries. In a first turn in which the model calls the
    retrieval tool before it answers, the run has four messages (prompt,
    tool call, tool return, answer) and four entries are added. *)
Lemma successful_turn_adds_four_entries :
  ending (run_stream tool_user "llama" [])
    = Return [UserPrompt "llama"; ToolCall "llama"; ToolReturn [];
              AssistantText "Nothing found."] ∧
  history (guarded_turn plain tool_user "llama" [])
    = [UserPrompt "llama"; ToolCall "llama"; ToolReturn [];
       AssistantText "Nothing found."] ∧
  length (history (guarded_turn plain tool_user "llama" [])) ≠ 0 + 2.
Proof. repeat split; vm_compute; (reflexivity || discriminate). Qed.

(** C3, amended. In every turn the entries already in the history stay
    where they are, and what a turn adds comes after them. A turn whose
    backend call fails adds nothing, whether or not the failure can be
    reported. A successful first turn, on the empty history, leaves the
    messages of the run as the run reports them: the user entry and then
    the assistant entry when the model answers at once, and between them
    the tool call and its return when it calls the tool. *)
Theorem turn_appends_to_history (console : Console) (graphiti_agent : Agent)
    (user_input : string) (messages : list message) :
  messages `prefix_of`
    history (guarded_turn console graphiti_agent user_input messages) ∧
  match ending (run_stream graphiti_agent user_input messages) with
  | Raise _ =>
      history (guarded_turn console graphiti_agent user_input messages)
        = messages
  | Return _ => True
  end ∧
  history (guarded_turn console graphiti_agent user_input []) =
    match ending (run_stream graphiti_agent user_input []) with
    | Return all_messages => all_messages
    | Raise _ => []
    end.
Proof.
  rewrite !guarded_turn_eq. cbn zeta. repeat split.
  - destruct (ending _) as [all|[c m|c m]]; unfold history; cbn [fst snd];
      [by apply prefix_app_r|done..].
  - by destruct (ending _) as [all|[c m|c m]].
  - by destruct (ending _) as [all|[c m|c m]].
Qed.

(** C5. A turn whose stream raises, after any number of fragments, adds
    nothing to the history, whatever becomes of the report of the
    failure; an interrupt is raised again by the turn. *)
Theorem aborted_turn_appends_nothing (console : Console)
    (graphiti_agent : Agent) (user_input : string)
    (messages : list message) (e : exn) :
  ending (run_stream graphiti_agent user_input messages) = Raise e →
  history (guarded_turn console graphiti_agent user_input messages) = messages ∧
  match e with
  | Exception _ _ => True
  | BaseException _ _ =>
      result (guarded_turn console graphiti_agent user_input messages) = Raise e
  end.
Proof.
  intros H. rewrite guarded_turn_eq. cbn zeta. rewrite H.
  by destruct e as [c m|c m].
Qed.

Lemma aborted_turn_appends_nothing_witness :
  history (guarded_turn plain (cut_off KeyboardInterrupt) "hi"
             [UserPrompt "a"; AssistantText "b"])
    = [UserPrompt "a"; AssistantText "b"] ∧
  match KeyboardInterrupt with
  | Exception _ _ => True
  | BaseException _ _ =>
      result (guarded_turn plain (cut_off KeyboardInterrupt) "hi"
                [UserPrompt "a"; AssistantText "b"])
        = Raise KeyboardInterrupt
  end.
Proof.
  apply (aborted_turn_appends_nothing plain (cut_off KeyboardInterrupt) "hi"
           [UserPrompt "a"; AssistantText "b"] KeyboardInterrupt).
  reflexivity.
Defined.

(** C6. While a stream is read, the text shown after the k-th fragment is
    the concatenation of the first k fragments, and when the stream ends
    the text is the concatenation of all its fragments. For the stream
    "Hel", "lo, ", "world" the texts shown are "Hel", "Hello, " and
    "Hello, world", and the final text is "Hello, world". *)
Theorem live_buffer_is_concatenation_so_far :
  (∀ (s : stream) (messages : list message),
     stream_text s "" messages =
       ((λ k, LiveUpdate (join (take (S k) (fragments s))))
          <$> seq 0 (length (fragments s)),
        messages,
        match ending s with
        | Return all_messages => Return (join (fragments s), all_messages)
        | Raise e => Raise e
        end)) ∧
  stream_text hello_world "" [] =
    ([LiveUpdate "Hel"; LiveUpdate "Hello, "; LiveUpdate "Hello, world"],
     [],
     Return ("Hello, world", [UserPrompt "hi"; AssistantText "Hello, world"])).
Proof.
  split; [|vm_compute; reflexivity].
  intros s messages. rewrite stream_text_eq, buffers_take.
  by rewrite <- list_fmap_compose.
Qed.

(** C8: what the loop does where the claim asks it to go on. The handler
    prints the message of the exception as rich markup. When rich
    refuses that text, the handler raises what rich raised, the loop ends
    there and the rest of the input is not read. *)
Theorem unprintable_failure_ends_loop (console : Console)
    (graphiti_agent : Agent) (user_input : string)
    (rest : list stdin_event) (messages : list message)
    (c m : string) (e : exn) :
  lower user_input ∉ exit_words →
  ending (run_stream graphiti_agent user_input messages)
    = Raise (Exception c m) →
  console (ErrorMessage m) = Raise e →
  session_loop console graphiti_agent (Line user_input :: rest) messages =
    ([ConsolePrint Prompt; Input user_input;
      ConsolePrint Robot; RunStream user_input messages]
     ++ (LiveUpdate <$> buffers ""
           (fragments (run_stream graphiti_agent user_input messages))),
     messages, Raise e).
Proof.
  intros Hne He Hc. rewrite session_loop_turn by exact Hne.
  rewrite guarded_turn_eq. cbn zeta. rewrite He, report_eq. cbn.
  rewrite Hc. cbn. by rewrite app_nil_r.
Qed.

Lemma unprintable_failure_ends_loop_witness :
  session_loop rich garbled (Line "hi" :: [Line "more"; Line "exit"]) [] =
    ([ConsolePrint Prompt; Input "hi"; ConsolePrint Robot; RunStream "hi" []]
     ++ (LiveUpdate <$> buffers "" (fragments (run_stream garbled "hi" []))),
     [], Raise (MarkupError "35")).
Proof.
  apply (unprintable_failure_ends_loop rich garbled "hi"
           [Line "more"; Line "exit"] [] "UnexpectedModelBehavior"
           "bad [/x] tag" (MarkupError "35")).
  - apply (bool_decide_unpack _). vm_compute. exact I.
  - reflexivity.
  - reflexivity.
Defined.

(** C9. An input whose lowercase form is "exit", "quit", "bye" or
    "goodbye" ends the loop: the farewell is printed, the agent is not
    run for it (no [RunStream] event), nothing more is read and the
    history is unchanged. *)
Theorem exit_word_ends_loop (console : Console) (graphiti_agent : Agent)
    (user_input : string) (rest : list stdin_event)
    (messages : list message) :
  lower user_input ∈ exit_words →
  session_loop console graphiti_agent (Line user_input :: rest) messages =
    ([ConsolePrint Prompt; Input user_input; ConsolePrint Goodbye],
     messages, Return ()) ∧
  ∀ user_prompt message_history,
    RunStream user_prompt message_history
      ∉ trace (session_loop console graphiti_agent (Line user_input :: rest) messages).
Proof.
  intros H. rewrite session_loop_exit by exact H. split; [reflexivity|].
  intros u h. unfold trace. cbn [fst].
  rewrite !elem_of_cons, elem_of_nil. intros [|[|[|[]]]]; discriminate.
Qed.

Lemma exit_word_ends_loop_witness :
  (session_loop plain echo [Line "EXIT"; Line "more"] [] =
     ([ConsolePrint Prompt; Input "EXIT"; ConsolePrint Goodbye], [], Return ()) ∧
   ∀ user_prompt message_history,
     RunStream user_prompt message_history
       ∉ trace (session_loop plain echo [Line "EXIT"; Line "more"] [])) ∧
  (session_loop plain echo [Line "Bye"; Line "more"] [] =
     ([ConsolePrint Prompt; Input "Bye"; ConsolePrint Goodbye], [], Return ()) ∧
   ∀ user_prompt message_history,
     RunStream user_prompt message_history
       ∉ trace (session_loop plain echo [Line "Bye"; Line "more"] [])) ∧
  (session_loop plain echo [Line "goodbye"; Line "more"] [] =
     ([ConsolePrint Prompt; Input "goodbye"; ConsolePrint Goodbye], [], Return ()) ∧
   ∀ user_prompt message_history,
     RunStream user_prompt message_history
       ∉ trace (session_loop plain echo [Line "goodbye"; Line "more"] [])).
Proof.
  repeat apply conj.
  1,2: apply (exit_word_ends_loop plain echo "EXIT" [Line "more"] []).
  3,4: apply (exit_word_ends_loop plain echo "Bye" [Line "more"] []).
  5,6: apply (exit_word_ends_loop plain echo "goodbye" [Line "more"] []).
  all: apply (bool_decide_unpack _); vm_compute; exact I.
Defined.

(** C7: what [main] does where the claim asks for the connection to be
    closed. The [try ... finally] that closes it begins after index
    initialisation. An interrupt during [build_indices_and_constraints],
    and a failure of it whose message rich refuses to print, both end
    [main] before that [try]: the client has been created and is never
    closed. *)
Theorem failed_startup_never_closes :
  main plain interrupted_store (Return ()) echo [Line "exit"] [] =
    ([BuildIndices], [], Raise KeyboardInterrupt) ∧
  closes (trace (main plain interrupted_store (Return ()) echo
                   [Line "exit"] [])) = 0 ∧
  main rich refusing_store (Return ()) echo [Line "exit"] [] =
    ([BuildIndices], [], Raise (MarkupError "40")) ∧
  closes (trace (main rich refusing_store (Return ()) echo
                   [Line "exit"] [])) = 0.
Proof. repeat split; vm_compute; reflexivity. Qed.

(** The helper of llm_config.py rebuilds the indices after the clear. *)
Lemma initialize_rebuilds_after_clear (graphiti_client : Graphiti)
    (messages : list message) :
  build_indices_and_constraints graphiti_client 0 = Return () →
  build_indices_and_constraints graphiti_client 1 = Return () →
  initialize_graphiti_with_clean_state graphiti_client (Some (Return ()))
    messages =
    ([BuildIndices;
      StdoutPrint "Clearing existing graph data for clean demo...";
      ClearData;
      StdoutPrint "Graph data cleared successfully.";
      BuildIndices],
     messages, Return ()).
Proof.
  intros H0 H1. unfold initialize_graphiti_with_clean_state. run.
  rewrite H0. cbn. rewrite H1. reflexivity.
Qed.

(** C4: what [main] does where the claim asks for a rebuild. When the
    index build and the clear succeed, [main] goes from the clear straight
    to the session: the indices are not built again, neither before the
    first prompt nor later. *)
Theorem main_clears_without_rebuild (console : Console)
    (graphiti_client : Graphiti) (graphiti_agent : Agent)
    (stdin : list stdin_event) (messages : list message) :
  build_indices_and_constraints graphiti_client 0 = Return () →
  let t := trace (session console graphiti_client graphiti_agent stdin messages) in
  trace (main console graphiti_client (Return ()) graphiti_agent stdin messages)
    = [BuildIndices; ConsolePrint IndicesBuilt; ClearData] ++ t ∧
  head t = Some (ConsolePrint Prompt) ∧
  occurrences BuildIndices t = 0.
Proof.
  intros H t. split; [|split].
  - rewrite main_eq. cbn zeta. rewrite startup_eq, H. reflexivity.
  - subst t. rewrite session_eq. cbn zeta.
    destruct (session_loop_prompts console graphiti_agent stdin []) as [t' Ht].
    destruct (close graphiti_client) as [[]|e]; unfold trace in *;
      cbn [fst]; rewrite Ht; reflexivity.
  - apply session_never_builds.
Qed.

Lemma main_clears_without_rebuild_witness :
  let t := trace (session plain (store_of (Return (Results []))) echo
                    [Line "hi"; Line "exit"] []) in
  trace (main plain (store_of (Return (Results []))) (Return ()) echo
           [Line "hi"; Line "exit"] [])
    = [BuildIndices; ConsolePrint IndicesBuilt; ClearData] ++ t ∧
  head t = Some (ConsolePrint Prompt) ∧
  occurrences BuildIndices t = 0.
Proof.
  apply (main_clears_without_rebuild plain (store_of (Return (Results [])))
           echo [Line "hi"; Line "exit"] []).
  reflexivity.
Defined.

(** ** Further properties of the retrieval tool *)

(** X1. Whatever the store replies, the tool sends it exactly one search,
    with the query it was given, and leaves the history alone. *)
Theorem search_sent_once (texts : Texts) (graphiti : Graphiti)
    (query : string) (messages : list message) :
  searched (trace (search_graphiti texts graphiti query messages)) = [query] ∧
  history (search_graphiti texts graphiti query messages) = messages.
Proof.
  destruct (search graphiti query) as [[l|v]|[c m|c m]] eqn:E.
  - rewrite (search_graphiti_results _ _ _ _ _ E).
    by destruct (format_results texts l []) as [fs|[c m|c m]].
  - unfold search_graphiti. run. rewrite E.
    destruct v as [|s| |]; cbn; try done.
    by destruct (format_results texts (chars s) []) as [fs|[c m|c m]].
  - by rewrite (search_graphiti_raised _ _ _ _ _ _ E).
  - unfold search_graphiti. run. by rewrite E.
Qed.

(** X2. The tool never raises an [Exception]. If it raises at all, what
    it raises is a signal outside [Exception] that the search call raised,
    and nothing was logged as an error. *)
Theorem tool_raises_only_signals (texts : Texts) (graphiti : Graphiti)
    (query : string) (messages : list message) (e : exn) :
  result (search_graphiti texts graphiti query messages) = Raise e →
  search graphiti query = Raise e ∧ ¬ is_Exception e ∧
  trace (search_graphiti texts graphiti query messages) =
    [LogInfo ("Searching Graphiti with query: " +:+ query); Search query].
Proof.
  intros H.
  destruct (search_graphiti_raises_only_signals _ _ _ _ _ H) as [Hs He].
  split; [exact Hs|]. split; [exact He|].
  destruct e as [c m|c m]; [destruct (He I)|].
  unfold search_graphiti. run. by rewrite Hs.
Qed.

Lemma tool_raises_only_signals_witness :
  search (store_of (Raise KeyboardInterrupt)) "llama" = Raise KeyboardInterrupt ∧
  ¬ is_Exception KeyboardInterrupt ∧
  trace (search_graphiti python (store_of (Raise KeyboardInterrupt)) "llama" []) =
    [LogInfo ("Searching Graphiti with query: " +:+ "llama"); Search "llama"].
Proof.
  apply (tool_raises_only_signals python (store_of (Raise KeyboardInterrupt))
           "llama" [] KeyboardInterrupt).
  reflexivity.
Defined.

(** X3. Results are formatted from left to right and the first one that
    cannot be formatted decides: the class and the message of the
    exception it raises are the ones logged, whatever comes after it in
    the reply. For a reply whose third record has no [uuid], CPython's
    message for the missing attribute is logged. *)
Theorem first_malformed_record_is_logged (texts : Texts) (graphiti : Graphiti)
    (query : string) (messages : list message)
    (good rest : list raw_result) (bad : raw_result) (c m : string) :
  search graphiti query = Return (Results (good ++ bad :: rest)) →
  Forall (λ r, well_formed r = true) good →
  format_result texts bad = Raise (Exception c m) →
  search_graphiti texts graphiti query messages =
    ([LogInfo ("Searching Graphiti with query: " +:+ query); Search query;
      LogInfo ("Found " +:+ pretty (length (good ++ bad :: rest))
               +:+ " results");
      LogError ("Error searching Graphiti: " +:+ c +:+ ": " +:+ m)],
     messages, Return []).
Proof.
  intros Hs Hgood Hbad. rewrite (search_graphiti_results _ _ _ _ _ Hs).
  clear Hs.
  assert (∀ acc, format_results texts (good ++ bad :: rest) acc
                 = Raise (Exception c m)) as H.
  { induction Hgood as [|r good Hr Hgood IH]; intros acc; cbn.
    - by rewrite Hbad.
    - destruct (format_result_well_formed texts r Hr) as [f ->]. cbn. apply IH. }
  by rewrite H.
Qed.

Lemma first_malformed_record_is_logged_witness :
  search_graphiti python
    (store_of (Return (Results (two_records ++ no_uuid :: two_records))))
    "q" [] =
    ([LogInfo ("Searching Graphiti with query: " +:+ "q"); Search "q";
      LogInfo ("Found " +:+ pretty (length (two_records ++ no_uuid :: two_records))
               +:+ " results");
      LogError ("Error searching Graphiti: " +:+ "AttributeError" +:+ ": "
                +:+ "'EntityEdge' object has no attribute 'uuid'")],
     [], Return []).
Proof.
  apply (first_malformed_record_is_logged python
           (store_of (Return (Results (two_records ++ no_uuid :: two_records))))
           "q" [] two_records two_records no_uuid).
  - reflexivity.
  - repeat constructor.
  - vm_compute. reflexivity.
Defined.

(** X4. In a formatted result a timestamp is absent exactly when the raw
    attribute is missing or falsy ([None], the empty string, zero);
    otherwise it is the attribute's [str()]. The source identifier is the
    attribute when that is a string and absent otherwise. *)
Theorem timestamps_of_formatted_result (texts : Texts)
    (attrs : gmap string pyval) (f : GraphitiSearchResult) :
  format_result texts (Edge attrs) = Return f →
  valid_at f = stamp (attrs !! "valid_at") ∧
  invalid_at f = stamp (attrs !! "invalid_at") ∧
  source_node_uuid f =
    match attrs !! "source_node_uuid" with
    | Some (PStr s) => Some s
    | _ => None
    end.
Proof.
  unfold format_result, new_GraphitiSearchResult, stamp; cbn.
  repeat (case_attr; try discriminate);
    repeat case_match; intros [= <-]; cbn; by repeat split.
Qed.

Lemma timestamps_of_formatted_result_witness :
  valid_at (set_valid_at "2020-01-01 00:00:00" (fact_of "1" "A"))
    = stamp (dated_attrs !! "valid_at") ∧
  invalid_at (set_valid_at "2020-01-01 00:00:00" (fact_of "1" "A"))
    = stamp (dated_attrs !! "invalid_at") ∧
  source_node_uuid (set_valid_at "2020-01-01 00:00:00" (fact_of "1" "A")) =
    match dated_attrs !! "source_node_uuid" with
    | Some (PStr s) => Some s
    | _ => None
    end.
Proof.
  apply (timestamps_of_formatted_result python dated_attrs
           (set_valid_at "2020-01-01 00:00:00" (fact_of "1" "A"))).
  vm_compute. reflexivity.
Defined.

(** ** Further properties of the session *)

Section SessionTraces.

Context (console : Console) (graphiti_client : Graphiti) (graphiti_agent : Agent).

Lemma prompts_updates (l : list string) : prompts (LiveUpdate <$> l) = [].
Proof. induction l as [|b l IH]; [reflexivity|exact IH]. Qed.

Lemma inputs_updates (l : list string) : inputs (LiveUpdate <$> l) = [].
Proof. induction l as [|b l IH]; [reflexivity|exact IH]. Qed.

(** The handler reads nothing and does not run the agent. *)
Lemma report_reads_nothing (e : exn) (messages : list message) :
  prompts (trace (report console e messages)) = [] ∧
  inputs (trace (report console e messages)) = [].
Proof.
  rewrite report_eq.
  destruct (console (ErrorMessage _)) as [[]|e']; [|by split].
  destruct (_ || _); [|by split].
  by destruct (console Troubleshooting) as [[]|e'].
Qed.

(** What the handler raises, rich raised on one of its two texts. *)
Lemma report_raises (e e' : exn) (messages : list message) :
  result (report console e messages) = Raise e' →
  console (ErrorMessage (exn_str e)) = Raise e' ∨
  console Troubleshooting = Raise e'.
Proof.
  rewrite report_eq.
  destruct (console (ErrorMessage _)) as [[]|e1]; [|intros [= <-]; by left].
  destruct (_ || _); [|discriminate].
  destruct (console Troubleshooting) as [[]|e2]; [discriminate|].
  intros [= <-]. by right.
Qed.

Lemma report_returns (e : exn) (messages : list message) :
  printable console → result (report console e messages) = Return ().
Proof. intros H. by rewrite report_printed by apply H. Qed.

(** A guarded turn runs the agent once, on the line, and reads nothing. *)
Lemma guarded_turn_prompts (user_input : string) (messages : list message) :
  prompts (trace (guarded_turn console graphiti_agent user_input messages))
    = [user_input] ∧
  inputs (trace (guarded_turn console graphiti_agent user_input messages)) = [].
Proof.
  rewrite guarded_turn_eq. cbn zeta.
  destruct (ending _) as [all|[c m|c m]].
  1,3: unfold trace, prompts, inputs; cbn [fst]; rewrite ?omap_app;
    fold prompts; fold inputs; rewrite ?prompts_updates, ?inputs_updates;
    by split.
  destruct (report_reads_nothing (Exception c m) messages) as [Hp Hi].
  destruct (report console _ _) as [[t messages'] o].
  unfold trace in *; cbn [fst] in *. unfold prompts, inputs in *.
  rewrite !omap_app. fold prompts; fold inputs.
  rewrite ?prompts_updates, ?inputs_updates. unfold prompts, inputs.
  rewrite Hp, Hi. by split.
Qed.

Lemma guarded_turn_result (user_input : string) (messages : list message) :
  result (guarded_turn console graphiti_agent user_input messages) =
    match ending (run_stream graphiti_agent user_input messages) with
    | Return _ => Return ()
    | Raise (Exception c m) => result (report console (Exception c m) messages)
    | Raise e => Raise e
    end.
Proof.
  rewrite guarded_turn_eq. cbn zeta.
  by destruct (ending _) as [all|[c m|c m]].
Qed.

Lemma guarded_turn_extends (user_input : string) (messages : list message) :
  messages `prefix_of`
    history (guarded_turn console graphiti_agent user_input messages).
Proof.
  rewrite guarded_turn_eq. cbn zeta.
  destruct (ending _) as [all|[c m|c m]]; unfold history; cbn [fst snd];
    [by apply prefix_app_r|done..].
Qed.

Lemma session_loop_eof (messages : list message) :
  session_loop console graphiti_agent [] messages =
    ([ConsolePrint Prompt], messages, Raise EOFError).
Proof. reflexivity. Qed.

Lemma session_loop_raises (e : exn) (rest : list stdin_event)
    (messages : list message) :
  session_loop console graphiti_agent (InputRaises e :: rest) messages =
    ([ConsolePrint Prompt], messages, Raise e).
Proof. reflexivity. Qed.

Lemma session_never_clears (stdin : list stdin_event) (messages : list message) :
  occurrences ClearData
    (trace (session console graphiti_client graphiti_agent stdin messages)) = 0.
Proof.
  rewrite session_eq. cbn zeta.
  pose proof (occurrences_quiet ClearData _ eq_refl
                (session_loop_quiet console graphiti_agent stdin [])) as H.
  destruct (close graphiti_client) as [[]|e]; unfold trace in *; cbn [fst];
    rewrite occurrences_app, H; reflexivity.
Qed.

(** On a console that prints every text, a script of ordinary lines is
    read to its end when no turn is interrupted. *)
Lemma uninterrupted_loop_reads_everything (stdin : list stdin_event)
    (messages : list message) :
  printable console →
  Forall ordinary stdin →
  (∀ u h, ¬ interrupted (ending (run_stream graphiti_agent u h))) →
  result (session_loop console graphiti_agent stdin messages) = Raise EOFError ∧
  inputs (trace (session_loop console graphiti_agent stdin messages)) = lines stdin ∧
  prompts (trace (session_loop console graphiti_agent stdin messages)) = lines stdin.
Proof.
  intros Hconsole Hstdin Hagent. revert messages.
  induction Hstdin as [|[u|e] rest Hu Hrest IH]; intros messages;
    [by rewrite session_loop_eof| |destruct Hu].
  cbn in Hu. rewrite session_loop_turn by exact Hu.
  destruct (guarded_turn_prompts u messages) as [Hp Hi].
  assert (result (guarded_turn console graphiti_agent u messages) = Return ())
    as Hr.
  { rewrite guarded_turn_result. pose proof (Hagent u messages) as Hnot.
    destruct (ending _) as [all|[c m|c m]];
      [reflexivity|by apply report_returns|destruct (Hnot I)]. }
  destruct (guarded_turn _ _ _ _) as [[t messages'] o];
    unfold trace, result in *; cbn [fst snd] in *. subst o.
  destruct (IH messages') as (IHr & IHi & IHp).
  unfold prompts, inputs in *; cbn [fst snd]; rewrite !omap_app, Hp, Hi;
    cbn; repeat split; by f_equal.
Qed.

End SessionTraces.

(** X5. After an exit word, or after a read that raises, nothing more is
    read: what follows in the input has no effect on the session. *)
Theorem nothing_read_after_the_end (console : Console) (graphiti_agent : Agent)
    (pre rest : list stdin_event) (ev : stdin_event)
    (messages : list message) :
  ends_session ev →
  session_loop console graphiti_agent (pre ++ ev :: rest) messages =
  session_loop console graphiti_agent (pre ++ [ev]) messages.
Proof.
  intros Hev. revert messages.
  induction pre as [|[u|e] pre IH]; intros messages.
  - destruct ev as [u|e]; [|reflexivity].
    cbn [app]. by rewrite !session_loop_exit.
  - cbn [app]. destruct (decide (lower u ∈ exit_words)) as [H|H].
    + by rewrite !session_loop_exit.
    + rewrite !session_loop_turn by exact H.
      destruct (guarded_turn _ _ _ _) as [[t messages'] [[]|e]]; [|reflexivity].
      by rewrite IH.
  - reflexivity.
Qed.

Lemma nothing_read_after_the_end_witness :
  session_loop plain echo ([Line "hi"] ++ Line "Quit" :: [Line "more"; Line "exit"]) [] =
  session_loop plain echo ([Line "hi"] ++ [Line "Quit"]) [].
Proof.
  apply (nothing_read_after_the_end plain echo [Line "hi"]
           [Line "more"; Line "exit"] (Line "Quit") []).
  apply (bool_decide_unpack _). vm_compute. exact I.
Defined.

(** X6. The agent is run on the lines of the input in the order they were
    typed, each at most once and unchanged: the lines read are an initial
    part of the input lines, and the prompts given to the agent are the
    lines read, except possibly the last one (the exit word). *)
Theorem agent_runs_follow_the_input (console : Console) (graphiti_agent : Agent)
    (stdin : list stdin_event) (messages : list message) :
  let t := trace (session_loop console graphiti_agent stdin messages) in
  inputs t `prefix_of` lines stdin ∧
  prompts t `prefix_of` inputs t ∧
  (length (inputs t) ≤ S (length (prompts t)))%nat.
Proof.
  cbn zeta. revert messages.
  induction stdin as [|[u|e] rest IH]; intros messages;
    rewrite ?session_loop_eof, ?session_loop_raises;
    [repeat split; [apply prefix_nil..|cbn; lia]|
    |repeat split; [apply prefix_nil..|cbn; lia]].
  cbn [lines omap list_omap].
  destruct (decide (lower u ∈ exit_words)) as [H|H].
  - rewrite session_loop_exit by exact H.
    repeat split; [apply (prefix_cons u), prefix_nil|apply prefix_nil|cbn; lia].
  - rewrite session_loop_turn by exact H.
    destruct (guarded_turn_prompts console graphiti_agent u messages) as [Hp Hi].
    destruct (guarded_turn _ _ _ _) as [[t messages'] [[]|e]];
      unfold trace in *; cbn [fst] in *.
    + destruct (IH messages') as (IHi & IHp & IHl).
      unfold prompts, inputs in *. rewrite !omap_app, Hp, Hi. cbn.
      repeat split; [by apply prefix_cons..|lia].
    + unfold prompts, inputs in *. rewrite !omap_app, Hp, Hi. cbn.
      repeat split; [apply (prefix_cons u), prefix_nil|done|lia].
Qed.

(** X7. On a console that prints every text, a script of ordinary lines,
    without exit word, ends by [EOFError] provided no turn is interrupted:
    every line is read and given to the agent, then the read at the end of
    the input raises, the connection is closed and [main] raises the
    [EOFError]. *)
Theorem input_without_exit_ends_in_EOFError (console : Console)
    (graphiti_client : Graphiti) (clear_data : outcome unit)
    (graphiti_agent : Agent) (stdin : list stdin_event)
    (messages : list message) :
  printable console →
  result (startup console graphiti_client clear_data messages) = Return () →
  close graphiti_client = Return () →
  Forall ordinary stdin →
  (∀ u h, ¬ interrupted (ending (run_stream graphiti_agent u h))) →
  let r := main console graphiti_client clear_data graphiti_agent stdin messages in
  result r = Raise EOFError ∧
  inputs (trace r) = lines stdin ∧
  prompts (trace r) = lines stdin ∧
  closes (trace r) = 1.
Proof.
  intros Hconsole Hstart Hclose Hstdin Hagent. cbn zeta.
  destruct (uninterrupted_loop_reads_everything console graphiti_agent stdin []
              Hconsole Hstdin Hagent) as (Hr & Hi & Hp).
  destruct (startup_facts console graphiti_client clear_data messages)
    as (_ & _ & _ & Hs0 & Hsi & Hsp).
  pose proof (occurrences_quiet Close _ eq_refl
                (session_loop_quiet console graphiti_agent stdin [])) as Hq.
  rewrite main_eq. cbn zeta. rewrite Hstart.
  rewrite session_eq in *. cbn zeta in *. rewrite Hclose in *.
  unfold trace, result, closes in *; cbn [fst snd] in *.
  unfold prompts, inputs in *.
  rewrite !omap_app, Hsi, Hsp, Hi, Hp, !occurrences_app, Hs0, Hq.
  cbn. rewrite !app_nil_r. by repeat split.
Qed.

Lemma input_without_exit_ends_in_EOFError_witness :
  let r := main plain (store_of (Return (Results []))) (Return ()) unreachable
             [Line "hi"; Line "there"] [] in
  result r = Raise EOFError ∧
  inputs (trace r) = lines [Line "hi"; Line "there"] ∧
  prompts (trace r) = lines [Line "hi"; Line "there"] ∧
  closes (trace r) = 1.
Proof.
  apply (input_without_exit_ends_in_EOFError plain
           (store_of (Return (Results []))) (Return ()) unreachable
           [Line "hi"; Line "there"] []).
  - intros r. reflexivity.
  - reflexivity.
  - reflexivity.
  - repeat constructor; apply (bool_decide_unpack _); vm_compute; exact I.
  - intros u h. simpl. exact (λ H, H).
Defined.

(** X8. Once index initialisation has returned, closing the connection is
    the last thing [main] does with the store. When [close()] returns,
    the closing message is printed and [main] ends as the loop ended, with
    the loop's history; when [close()] raises, the message is not printed
    and [main] raises what [close()] raised, whatever the loop had
    raised. *)
Theorem main_ends_with_close (console : Console) (graphiti_client : Graphiti)
    (clear_data : outcome unit) (graphiti_agent : Agent)
    (stdin : list stdin_event) (messages : list message) :
  result (startup console graphiti_client clear_data messages) = Return () →
  let r := main console graphiti_client clear_data graphiti_agent stdin messages in
  let loop := session_loop console graphiti_agent stdin [] in
  history r = history loop ∧
  match close graphiti_client with
  | Return _ =>
      trace r = trace (startup console graphiti_client clear_data messages)
                ++ trace loop ++ [Close; ConsolePrint ConnectionClosed] ∧
      result r = result loop
  | Raise e =>
      trace r = trace (startup console graphiti_client clear_data messages)
                ++ trace loop ++ [Close] ∧
      result r = Raise e
  end.
Proof.
  intros Hstart. cbn zeta. rewrite main_eq. cbn zeta. rewrite Hstart.
  rewrite session_eq. cbn zeta.
  by destruct (close graphiti_client) as [[]|e].
Qed.

Lemma main_ends_with_close_witness :
  let r := main rich (store_of (Return (Results []))) (Return ())
             garbled [Line "hi"; Line "exit"] [] in
  let loop := session_loop rich garbled [Line "hi"; Line "exit"] [] in
  history r = history loop ∧
  match close (store_of (Return (Results []))) with
  | Return _ =>
      trace r = trace (startup rich (store_of (Return (Results []))) (Return ()) [])
                ++ trace loop ++ [Close; ConsolePrint ConnectionClosed] ∧
      result r = result loop
  | Raise e =>
      trace r = trace (startup rich (store_of (Return (Results []))) (Return ()) [])
                ++ trace loop ++ [Close] ∧
      result r = Raise e
  end.
Proof.
  apply (main_ends_with_close rich (store_of (Return (Results []))) (Return ())
           garbled [Line "hi"; Line "exit"] []).
  reflexivity.
Defined.

(** X9. The calls that manage the store in a run of [main] that has
    created its client, from index initialisation on: the indices are
    built exactly once; the data is cleared exactly once when that build
    returned and not at all otherwise (in particular not when the build
    failed); the connection is closed exactly once when index
    initialisation returned and not at all when it raised, be it an
    interrupt or the report of a failure that rich refused. *)
Theorem lifecycle_calls_of_main (console : Console) (graphiti_client : Graphiti)
    (clear_data : outcome unit) (graphiti_agent : Agent)
    (stdin : list stdin_event) (messages : list message) :
  let r := main console graphiti_client clear_data graphiti_agent stdin messages in
  occurrences BuildIndices (trace r) = 1 ∧
  occurrences ClearData (trace r) =
    match build_indices_and_constraints graphiti_client 0 with
    | Return _ => 1
    | Raise _ => 0
    end ∧
  occurrences Close (trace r) =
    match result (startup console graphiti_client clear_data messages) with
    | Return _ => 1
    | Raise _ => 0
    end.
Proof.
  cbn zeta. rewrite main_eq. cbn zeta.
  pose proof (session_never_builds console graphiti_client graphiti_agent
                stdin messages) as Hb.
  pose proof (session_never_clears console graphiti_client graphiti_agent
                stdin messages) as Hc.
  pose proof (session_closes_once console graphiti_client graphiti_agent
                stdin messages) as Hx.
  destruct (startup_facts console graphiti_client clear_data messages)
    as (_ & Hsb & Hsc & Hsx & _).
  unfold closes in Hx.
  destruct (result (startup _ _ _ _)) as [[]|e];
    unfold trace in *; cbn [fst snd] in *;
    rewrite ?occurrences_app, ?Hb, ?Hc, ?Hx, ?Hsb, ?Hsc, ?Hsx;
    repeat split; try reflexivity; lia.
Qed.

(** X10. If [all_messages()] returns the history it was given followed by
    the prompt and the answer of the turn, then extending the history by
    it repeats the earlier entries: from a history of n entries a turn
    leads to 2n+2 entries, so after k turns the history has
    (n+2)·2^k - 2 entries. *)
Theorem history_doubles_each_turn (console : Console) (graphiti_agent : Agent)
    (stdin : list stdin_event) (messages : list message) :
  (∀ u h, ∃ a, ending (run_stream graphiti_agent u h)
               = Return (h ++ [UserPrompt u; AssistantText a])) →
  length (history (session_loop console graphiti_agent stdin messages)) + 2 =
    (length messages + 2) * 2 ^ turns stdin.
Proof.
  intros Hagent. revert messages.
  induction stdin as [|[u|e] rest IH]; intros messages;
    rewrite ?session_loop_eof, ?session_loop_raises;
    [cbn; lia| |cbn; lia].
  cbn [turns]. destruct (decide (lower u ∈ exit_words)) as [H|H].
  - rewrite session_loop_exit, bool_decide_eq_true_2 by exact H. cbn. lia.
  - rewrite session_loop_turn, bool_decide_eq_false_2 by exact H.
    rewrite guarded_turn_eq. cbn zeta.
    destruct (Hagent u messages) as [a ->].
    unfold history in *. cbn [fst snd]. rewrite IH.
    rewrite !length_app. cbn [length]. rewrite Nat.pow_succ_r'. lia.
Qed.

Lemma history_doubles_each_turn_witness :
  length (history (session_loop plain echo
                     [Line "a"; Line "b"; Line "c"; Line "exit"] [])) + 2 =
    (length (@nil message) + 2) * 2 ^ turns [Line "a"; Line "b"; Line "c"; Line "exit"].
Proof.
  apply (history_doubles_each_turn plain echo
           [Line "a"; Line "b"; Line "c"; Line "exit"] []).
  intros u h. exists "Hello". reflexivity.
Defined.






(** X21. A turn whose backend call raises an [Exception], at once or after
    some fragments, is reported on the console and the loop goes on with
    the rest of the input and the same history, provided rich prints the
    error message, and the troubleshooting panel when the message calls
    for it. *)
Theorem failed_turn_reported_and_loop_continues (console : Console)
    (graphiti_agent : Agent) (user_input : string)
    (rest : list stdin_event) (messages : list message) (c m : string) :
  lower user_input ∉ exit_words →
  ending (run_stream graphiti_agent user_input messages)
    = Raise (Exception c m) →
  console (ErrorMessage m) = Return () →
  (contains "connection" (lower m) || contains "refused" (lower m) = true →
   console Troubleshooting = Return ()) →
  session_loop console graphiti_agent (Line user_input :: rest) messages =
    let r := session_loop console graphiti_agent rest messages in
    ([ConsolePrint Prompt; Input user_input;
      ConsolePrint Robot; RunStream user_input messages]
     ++ (LiveUpdate <$> buffers ""
           (fragments (run_stream graphiti_agent user_input messages)))
     ++ ConsolePrint (ErrorMessage m)
        :: (if contains "connection" (lower m) || contains "refused" (lower m)
            then [ConsolePrint Troubleshooting] else [])
     ++ trace r,
     history r, result r).
Proof.
  intros Hne He H1 H2. rewrite session_loop_turn by exact Hne.
  rewrite guarded_turn_eq. cbn zeta. rewrite He, report_eq. cbn.
  rewrite H1. destruct (_ || _); [rewrite H2 by reflexivity|];
    cbn; by rewrite <- !app_assoc.
Qed.

Lemma failed_turn_reported_and_loop_continues_witness :
  session_loop rich unreachable [Line "hi"; Line "exit"] [] =
    ([ConsolePrint Prompt; Input "hi"; ConsolePrint Robot; RunStream "hi" [];
      ConsolePrint (ErrorMessage "Connection error.");
      ConsolePrint Troubleshooting;
      ConsolePrint Prompt; Input "exit"; ConsolePrint Goodbye],
     [], Return ()).
Proof.
  apply (failed_turn_reported_and_loop_continues rich unreachable "hi"
           [Line "exit"] [] "APIConnectionError" "Connection error.").
  - apply (bool_decide_unpack _). vm_compute. exact I.
  - reflexivity.
  - reflexivity.
  - reflexivity.
Defined.

(** ** Properties of [initialize_graphiti_with_clean_state] *)

(** X12. The helper handles no error: the data is cleared only after the
    first build returned and the indices are rebuilt only after the clear
    returned; whatever a call raises, [Exception] or not, the helper
    raises, and it never touches the history. *)
Theorem initialize_stops_at_first_failure (graphiti_client : Graphiti)
    (clear_data_func : option (outcome unit)) (messages : list message) :
  let r := initialize_graphiti_with_clean_state graphiti_client
             clear_data_func messages in
  history r = messages ∧
  occurrences ClearData (trace r) =
    match clear_data_func, build_indices_and_constraints graphiti_client 0 with
    | Some _, Return _ => 1
    | _, _ => 0
    end ∧
  occurrences BuildIndices (trace r) =
    match clear_data_func, build_indices_and_constraints graphiti_client 0 with
    | Some (Return _), Return _ => 2
    | _, _ => 1
    end ∧
  result r =
    match build_indices_and_constraints graphiti_client 0, clear_data_func with
    | Raise e, _ => Raise e
    | Return _, None => Return ()
    | Return _, Some (Raise e) => Raise e
    | Return _, Some (Return _) => build_indices_and_constraints graphiti_client 1
    end.
Proof.
  cbn zeta. unfold initialize_graphiti_with_clean_state. run.
  destruct (build_indices_and_constraints graphiti_client 0) as [[]|e];
    destruct clear_data_func as [[[]|e']|]; cbn; by repeat split.
Qed.

(** ** Properties of the configuration *)

Lemma py_or_empty (environ : gmap string string) (arg : option string)
    (key fallback : string) :
  fallback ≠ "" →
  String.eqb (py_or arg (environ_get environ key fallback)) "" = true
  ↔ unset environ arg key.
Proof.
  intros Hd. unfold py_or, environ_get, unset. rewrite String.eqb_eq.
  destruct arg as [s|].
  - destruct (String.eqb s "") eqn:Es.
    + apply String.eqb_eq in Es as ->.
      destruct (environ !! key) as [v|]; cbn; split.
      * intros ->. split; [by right|done].
      * by intros [_ [= ->]].
      * done.
      * by intros [_ ?].
    + apply String.eqb_neq in Es. split; [done|].
      intros [[?|[= ?]] _]; congruence.
  - destruct (environ !! key) as [v|]; cbn; split.
    + intros ->. split; [by left|done].
    + by intros [_ [= ->]].
    + done.
    + by intros [_ ?].
Qed.

Lemma create_graphiti_client_cases (lib : Constructors)
    (environ : gmap string string)
    (neo4j_uri neo4j_user neo4j_password : option string) :
  let graphiti := requested environ neo4j_uri neo4j_user neo4j_password in
  let missing :=
    unset environ neo4j_uri "NEO4J_URI" ∨
    unset environ neo4j_user "NEO4J_USER" ∨
    unset environ neo4j_password "NEO4J_PASSWORD" in
  let r := create_graphiti_client lib environ neo4j_uri neo4j_user
             neo4j_password in
  (missing ∧
   r = Raise (ValueError "NEO4J_URI, NEO4J_USER, and NEO4J_PASSWORD must be set"))
  ∨ (¬ missing ∧ constructed lib graphiti ∧ r = Return graphiti)
  ∨ (¬ missing ∧ ∃ e, refused lib graphiti e ∧ r = Raise e).
Proof.
  cbn zeta. unfold create_graphiti_client, requested, constructed, refused.
  cbn zeta. cbn [embedder llm_client].
  rewrite <- (py_or_empty environ neo4j_uri "NEO4J_URI" "bolt://localhost:7687"),
    <- (py_or_empty environ neo4j_user "NEO4J_USER" "neo4j"),
    <- (py_or_empty environ neo4j_password "NEO4J_PASSWORD" "password")
    by discriminate.
  rewrite <- !orb_true_iff, orb_assoc.
  destruct (_ || _ || _); [by left|right].
  destruct (new_OpenAIEmbedder lib _) as [[]|e1] eqn:E1; cbn;
    [|right; split; [done|]; exists e1; by split; [left|]].
  destruct (new_OpenAIClient lib _) as [[]|e2] eqn:E2; cbn;
    [|right; split; [done|]; exists e2; by split; [right; left|]].
  destruct (new_Graphiti lib _) as [[]|e3] eqn:E3; cbn;
    [|right; split; [done|]; exists e3; by split; [right; right|]].
  left. by repeat split.
Qed.

(** The three ways the creation of a client can end, as properties of
    its outcome. *)
Lemma checked_then_constructed (lib : Constructors) (graphiti : GraphitiArgs)
    (missing : Prop) (r : outcome GraphitiArgs) :
  (missing ∧
   r = Raise (ValueError "NEO4J_URI, NEO4J_USER, and NEO4J_PASSWORD must be set"))
  ∨ (¬ missing ∧ constructed lib graphiti ∧ r = Return graphiti)
  ∨ (¬ missing ∧ ∃ e, refused lib graphiti e ∧ r = Raise e) →
  (missing →
   r = Raise (ValueError "NEO4J_URI, NEO4J_USER, and NEO4J_PASSWORD must be set")) ∧
  (∀ e, r = Raise e → ¬ missing → refused lib graphiti e) ∧
  (∀ a, r = Return a → a = graphiti ∧ ¬ missing ∧ constructed lib graphiti) ∧
  (¬ missing → constructed lib graphiti → r = Return graphiti).
Proof.
  intros [[Hm ->]|[(Hm & Hc & ->)|(Hm & e & He & ->)]];
    (split; [|split; [|split]]).
  - reflexivity.
  - intros e _ Hn. destruct (Hn Hm).
  - intros a [=].
  - intros Hn. destruct (Hn Hm).
  - intros H. destruct (Hm H).
  - intros e [=].
  - intros a [= <-]. split; [reflexivity|]. split; assumption.
  - reflexivity.
  - intros H. destruct (Hm H).
  - intros e' [= <-] _. exact He.
  - intros a [=].
  - intros _ (H1 & H2 & H3). destruct He as [He|[He|He]]; congruence.
Qed.

(** X13. [create_graphiti_client] checks before it constructs. When, for
    one of the three connection parameters, the argument is left out or
    empty and the environment variable is set to the empty string, it
    raises its [ValueError], whatever the constructors would do. A
    variable that is not set never makes the check fail, since the default
    applies. Past the check, the function fails only with what a
    constructor raised, and it returns exactly when the three constructors
    return: the client it was asked for. *)
Theorem create_graphiti_client_checks_then_constructs (lib : Constructors)
    (environ : gmap string string)
    (neo4j_uri neo4j_user neo4j_password : option string) :
  let graphiti := requested environ neo4j_uri neo4j_user neo4j_password in
  let missing :=
    unset environ neo4j_uri "NEO4J_URI" ∨
    unset environ neo4j_user "NEO4J_USER" ∨
    unset environ neo4j_password "NEO4J_PASSWORD" in
  let r := create_graphiti_client lib environ neo4j_uri neo4j_user
             neo4j_password in
  (missing →
   r = Raise (ValueError "NEO4J_URI, NEO4J_USER, and NEO4J_PASSWORD must be set")) ∧
  (∀ e, r = Raise e → ¬ missing → refused lib graphiti e) ∧
  (∀ a, r = Return a → a = graphiti ∧ ¬ missing ∧ constructed lib graphiti) ∧
  (¬ missing → constructed lib graphiti → r = Return graphiti).
Proof.
  cbn zeta. apply checked_then_constructed.
  apply create_graphiti_client_cases.
Qed.

(** X14. Arguments that are given and not empty are used as they are,
    whatever the environment holds for them, and the embedder and the LLM
    client are the ones configured by the environment: this is the client
    returned when the three constructors return. *)
Theorem explicit_arguments_win (lib : Constructors)
    (environ : gmap string string)
    (neo4j_uri neo4j_user neo4j_password : string) :
  neo4j_uri ≠ "" → neo4j_user ≠ "" → neo4j_password ≠ "" →
  constructed lib
    {| uri := neo4j_uri; user := neo4j_user; password := neo4j_password;
       embedder := create_embedder environ;
       llm_client := create_llm_client environ |} →
  create_graphiti_client lib environ
    (Some neo4j_uri) (Some neo4j_user) (Some neo4j_password) =
    Return {| uri := neo4j_uri; user := neo4j_user; password := neo4j_password;
              embedder := create_embedder environ;
              llm_client := create_llm_client environ |}.
Proof.
  intros Hu Hn Hp Hc.
  assert (∀ s d, s ≠ "" → py_or (Some s) d = s) as Hor.
  { intros s d Hs. unfold py_or. apply String.eqb_neq in Hs. by rewrite Hs. }
  pose proof (create_graphiti_client_cases lib environ (Some neo4j_uri)
                (Some neo4j_user) (Some neo4j_password)) as H.
  cbn zeta in H. unfold requested in H. rewrite !Hor in H by assumption.
  destruct H as [[Hm _]|[(_ & _ & ->)|(_ & e & He & _)]].
  - exfalso. unfold unset in Hm.
    destruct Hm as [[[Hx|Hx] _]|[[[Hx|Hx] _]|[[Hx|Hx] _]]]; congruence.
  - reflexivity.
  - exfalso. destruct Hc as (H1 & H2 & H3).
    destruct He as [He|[He|He]]; cbn [embedder llm_client] in *; congruence.
Qed.

Lemma explicit_arguments_win_witness :
  create_graphiti_client willing (<["NEO4J_URI" := ""]> ∅)
    (Some "bolt://db:7687") (Some "neo4j") (Some "secret") =
    Return {| uri := "bolt://db:7687"; user := "neo4j"; password := "secret";
              embedder := create_embedder (<["NEO4J_URI" := ""]> ∅);
              llm_client := create_llm_client (<["NEO4J_URI" := ""]> ∅) |}.
Proof.
  apply (explicit_arguments_win willing (<["NEO4J_URI" := ""]> ∅)
           "bolt://db:7687" "neo4j" "secret"); try discriminate.
  repeat split.
Defined.

Lemma py_or_same (s : string) : py_or (Some s) s = s.
Proof. unfold py_or. by destruct (String.eqb s ""). Qed.

Lemma unset_given (environ : gmap string string) (key fallback : string) :
  fallback ≠ "" →
  unset environ (Some (environ_get environ key fallback)) key
  ↔ environ !! key = Some "".
Proof.
  intros Hd. unfold unset, environ_get. split; [by intros [_ ?]|].
  intros H. rewrite H. split; [by right|done].
Qed.

(** X15. The client creation of [main] raises the [ValueError] of the
    check when one of NEO4J_URI, NEO4J_USER, NEO4J_PASSWORD is set to the
    empty string. Otherwise it fails only with what a constructor raised,
    and it returns exactly when the three constructors return: the client
    with the values of the variables that are set and the defaults of the
    others. *)
Theorem connect_checks_then_constructs (lib : Constructors)
    (environ : gmap string string) :
  let graphiti :=
    {| uri := environ_get environ "NEO4J_URI" "bolt://localhost:7687";
       user := environ_get environ "NEO4J_USER" "neo4j";
       password := environ_get environ "NEO4J_PASSWORD" "password";
       embedder := create_embedder environ;
       llm_client := create_llm_client environ |} in
  let empty :=
    environ !! "NEO4J_URI" = Some "" ∨ environ !! "NEO4J_USER" = Some "" ∨
    environ !! "NEO4J_PASSWORD" = Some "" in
  (empty →
   connect lib environ =
     Raise (ValueError "NEO4J_URI, NEO4J_USER, and NEO4J_PASSWORD must be set")) ∧
  (∀ e, connect lib environ = Raise e → ¬ empty → refused lib graphiti e) ∧
  (∀ a, connect lib environ = Return a →
        a = graphiti ∧ ¬ empty ∧ constructed lib graphiti) ∧
  (¬ empty → constructed lib graphiti → connect lib environ = Return graphiti).
Proof.
  cbn zeta. unfold connect.
  pose proof (create_graphiti_client_cases lib environ
    (Some (environ_get environ "NEO4J_URI" "bolt://localhost:7687"))
    (Some (environ_get environ "NEO4J_USER" "neo4j"))
    (Some (environ_get environ "NEO4J_PASSWORD" "password"))) as H.
  cbn zeta in H. unfold requested in H. rewrite !py_or_same in H.
  rewrite !unset_given in H by discriminate.
  apply checked_then_constructed. exact H.
Qed.

(** X16. [get_model_info] reports exactly the settings the clients are
    built with: its four entries are the embedding model of the embedder,
    the chat model of the LLM client (used for the small model as well),
    and the base URL and API key that both clients share. *)
Theorem model_info_matches_clients (environ : gmap string string) :
  let info := get_model_info environ in
  let embedder := create_embedder environ in
  let llm := create_llm_client environ in
  info !! "embedding_model" = Some (embedding_model embedder) ∧
  info !! "chat_model" = Some (model llm) ∧
  small_model llm = model llm ∧
  info !! "base_url" = Some (base_url llm) ∧
  info !! "api_key" = Some (api_key llm) ∧
  embedder_base_url embedder = base_url llm ∧
  embedder_api_key embedder = api_key llm ∧
  dom info = {["embedding_model"; "chat_model"; "base_url"; "api_key"]}.
Proof.
  cbn zeta. unfold get_model_info, create_embedder, create_llm_client,
    get_lm_studio_config. cbn zeta.
  repeat split; reflexivity.
Qed.

(** X17. The chat model of the agent and the model of Graphiti's LLM
    client are read from the same variable with different defaults: they
    are the same model exactly when MODEL_CHOICE is set. *)
Theorem agent_and_graphiti_models_agree_iff (environ : gmap string string) :
  model_name (get_model environ) = model (create_llm_client environ)
  ↔ is_Some (environ !! "MODEL_CHOICE").
Proof.
  unfold get_model, create_llm_client, get_lm_studio_config, environ_get.
  cbn. destruct (environ !! "MODEL_CHOICE") as [m|]; cbn.
  - split; [eauto|reflexivity].
  - split; [discriminate|]. by intros [m [=]].
Qed.

(** ** Invariants *)

(** X18. The history is append-only: whatever the agent, the console and
    the input do, the history at the end of the loop begins with the
    history at its start. *)
Theorem history_is_append_only (console : Console) (graphiti_agent : Agent)
    (stdin : list stdin_event) (messages : list message) :
  messages `prefix_of` history (session_loop console graphiti_agent stdin messages).
Proof.
  revert messages.
  induction stdin as [|[u|e] rest IH]; intros messages;
    rewrite ?session_loop_eof, ?session_loop_raises; [done| |done].
  destruct (decide (lower u ∈ exit_words)) as [H|H].
  - by rewrite session_loop_exit.
  - rewrite session_loop_turn by exact H.
    pose proof (guarded_turn_extends console graphiti_agent u messages) as Hg.
    destruct (guarded_turn _ _ _ _) as [[t messages'] [[]|e]];
      unfold history in *; cbn [fst snd] in *; [|exact Hg].
    etrans; [exact Hg|apply IH].
Qed.

(** X19. A reply that is a list is returned whole or not at all: the
    result of the tool is either one formatted fact per raw result, in
    the order of the reply, or the empty list. *)
Theorem reply_is_kept_whole_or_not_at_all (texts : Texts) (graphiti : Graphiti)
    (query : string) (messages : list message) (l : list raw_result) :
  search graphiti query = Return (Results l) →
  ∃ fs, result (search_graphiti texts graphiti query messages) = Return fs ∧
        (fs = [] ∨ Forall2 (λ r f, format_result texts r = Return f) l fs).
Proof.
  intros Hs.
  destruct (decide (Forall (λ r, well_formed r = true) l)) as [Hl|Hl].
  - rewrite (search_graphiti_results _ _ _ _ _ Hs).
    destruct (format_results_well_formed texts l [] Hl) as (fs & -> & Hfs).
    exists fs. split; [reflexivity|by right].
  - exists []. split; [|by left].
    apply search_graphiti_failed. rewrite Hs. right.
    apply not_Forall_Exists in Hl; [|intros r; apply _].
    eapply Exists_impl; [exact Hl|]. intros r Hr. cbn in Hr.
    by destruct (well_formed r).
Qed.

Lemma reply_is_kept_whole_or_not_at_all_witness :
  ∃ fs, result (search_graphiti python
                  (store_of (Return (Results (no_uuid :: two_records)))) "q" [])
          = Return fs ∧
        (fs = [] ∨
         Forall2 (λ r f, format_result python r = Return f)
           (no_uuid :: two_records) fs).
Proof.
  apply (reply_is_kept_whole_or_not_at_all python
           (store_of (Return (Results (no_uuid :: two_records)))) "q" []
           (no_uuid :: two_records)).
  reflexivity.
Defined.

(** X20. An [Exception] of the backend itself never ends the loop. When
    the loop raises an [Exception], it was raised by reading the input,
    either as [EOFError] at the end of the input or by a read that raised
    it, or rich raised it on a text of the handler: on the error message
    of a failed turn or on the troubleshooting panel. *)
Theorem only_input_and_report_errors_end_the_loop (console : Console)
    (graphiti_agent : Agent) (stdin : list stdin_event)
    (messages : list message) (e : exn) :
  result (session_loop console graphiti_agent stdin messages) = Raise e →
  is_Exception e →
  e = EOFError ∨ InputRaises e ∈ stdin ∨
  (∃ error_msg, console (ErrorMessage error_msg) = Raise e) ∨
  console Troubleshooting = Raise e.
Proof.
  intros Hr He. revert messages Hr.
  induction stdin as [|[u|e'] rest IH]; intros messages;
    rewrite ?session_loop_eof, ?session_loop_raises.
  - intros [= <-]. by left.
  - destruct (decide (lower u ∈ exit_words)) as [H|H].
    + by rewrite session_loop_exit.
    + rewrite session_loop_turn by exact H.
      pose proof (guarded_turn_result console graphiti_agent u messages) as Hg.
      destruct (guarded_turn _ _ _ _) as [[t messages'] [[]|e'']];
        unfold result in *; cbn [fst snd] in *.
      * intros Hr. destruct (IH _ Hr) as [?|[?|?]]; [by left| |by right; right].
        right. left. by apply elem_of_cons; right.
      * intros [= <-].
        destruct (ending _) as [all|[c m|c m]]; [discriminate| |].
        -- symmetry in Hg.
           apply (report_raises console (Exception c m) e'' messages) in Hg.
           right. right. destruct Hg as [Hg|Hg]; [left; by exists m|by right].
        -- injection Hg as ->. destruct He.
  - intros [= <-]. right. left. apply elem_of_cons. by left.
Qed.

Lemma only_input_and_report_errors_end_the_loop_witness :
  MarkupError "35" = EOFError ∨
  InputRaises (MarkupError "35") ∈ [Line "hi"; Line "exit"] ∨
  (∃ error_msg, rich (ErrorMessage error_msg) = Raise (MarkupError "35")) ∨
  rich Troubleshooting = Raise (MarkupError "35").
Proof.
  apply (only_input_and_report_errors_end_the_loop rich garbled
           [Line "hi"; Line "exit"] [] (MarkupError "35")).
  - reflexivity.
  - exact I.
Defined.
